(** * ampy: command-line interface and firmware entrypoint generation

    A shallow embedding of [ampy/cli.py] and of
    [ampy/core/firmware_builder.py].  Python [str] and [bytes] values are
    Rocq strings whose characters are code points below 256; on that range
    the regular-expression class [\d] is exactly the ten ASCII digits.
    Commands are computations in a state-and-exception monad over a world
    made of the attached board, the host file system, the two output
    streams and a log of the calls issued to the board. *)

From Stdlib Require Import String Ascii List Bool Arith NArith Lia.
From Stdlib Require Import DecimalString.
Import ListNotations.

Local Open Scope string_scope.
Local Open Scope list_scope.

(* ================================================================= *)
(** ** Python strings *)

Module PyStr.

Definition LF : string := String (ascii_of_nat 10) EmptyString.

Definition is_digit (c : ascii) : bool :=
  Nat.leb 48 (nat_of_ascii c) && Nat.leb (nat_of_ascii c) 57.

Fixpoint all_digits (s : string) : bool :=
  match s with
  | EmptyString => true
  | String c r => is_digit c && all_digits r
  end.

(** The longest prefix of decimal digits, and what follows it: the way a
    greedy [\d+] consumes its input. *)
Fixpoint span_digits (s : string) : string * string :=
  match s with
  | EmptyString => (EmptyString, EmptyString)
  | String c r =>
      if is_digit c
      then let '(ds, tl) := span_digits r in (String c ds, tl)
      else (EmptyString, s)
  end.

Definition digit_value (c : ascii) : N := N.of_nat (nat_of_ascii c - 48).

(** [int(s)] on a string of decimal digits; leading zeros are accepted. *)
Definition int_of_digits (s : string) : N :=
  (fix go (acc : N) (s : string) : N :=
     match s with
     | EmptyString => acc
     | String c r => go (10 * acc + digit_value c)%N r
     end) 0%N s.

(** [str(n)] for a natural number. *)
Definition str_of_nat (n : nat) : string :=
  NilZero.string_of_uint (Nat.to_uint n).

(** [s.split(sep)] for a one-character separator: never an empty list. *)
Fixpoint split (sep : ascii) (s : string) : list string :=
  match s with
  | EmptyString => [EmptyString]
  | String c r =>
      if Ascii.eqb c sep then EmptyString :: split sep r
      else match split sep r with
           | w :: ws => String c w :: ws
           | [] => [String c EmptyString]
           end
  end.

(** [sep.join(parts)]. *)
Fixpoint join (sep : string) (parts : list string) : string :=
  match parts with
  | [] => EmptyString
  | [p] => p
  | p :: ps => p ++ sep ++ join sep ps
  end.

(** The slice [l[1:-1]]. *)
Definition slice_1_m1 {A : Type} (l : list A) : list A := removelast (tl l).

(** [s.endswith(suffix)]. *)
Definition endswith (s suffix : string) : bool :=
  let n := String.length s in
  let k := String.length suffix in
  Nat.leb k n && String.eqb (substring (n - k) k s) suffix.

(** Truth value of a string or bytes object: non-empty. *)
Definition truthy (s : string) : bool :=
  match s with EmptyString => false | _ => true end.

Definition has_char (c : ascii) (s : string) : bool :=
  existsb (Ascii.eqb c) (list_ascii_of_string s).

End PyStr.
Import PyStr.

(* ================================================================= *)
(** ** Port names on Windows ([cli.py], [windows_full_port_name]) *)

(** [re.match("^COM(\d+)$", portname)]: the digits captured by group 1
    when the pattern matches.  [$] matches at the very end and also just
    before a newline that ends the string. *)
Definition match_COM (portname : string) : option string :=
  match portname with
  | String "C" (String "O" (String "M" rest)) =>
      let '(ds, tl) := span_digits rest in
      if truthy ds && (String.eqb tl EmptyString || String.eqb tl LF)
      then Some ds else None
  | _ => None
  end.

Definition device_prefix : string := "\\.\".

Definition windows_full_port_name (portname : string) : string :=
  match match_COM portname with
  | Some ds =>
      if (int_of_digits ds <? 10)%N then portname
      else device_prefix ++ portname
  | None => device_prefix ++ portname
  end.

(** The port handed to the connection by [cli], given the value of
    [platform.system()]. *)
Definition cli_port (platform_system port : string) : string :=
  if String.eqb platform_system "Windows"
  then windows_full_port_name port
  else port.

(* ================================================================= *)
(** ** Exceptions, results and the collaborators of the two modules *)

(** Exceptions, by the classes the handlers of [cli.py] tell apart.
    [serial.serialutil.SerialException] derives from [IOError], so a
    handler for [IOError] takes it too. *)
Inductive exn : Type :=
| RuntimeError (msg : string)
| SerialException (msg : string)
| IOError (msg : string)
| UsageError (msg : string)
| DirectoryExistsError (msg : string)
| ValueError (msg : string)
| IndexError
| AttributeError
| OtherError (class_name msg : string).

Definition is_RuntimeError (e : exn) : bool :=
  match e with RuntimeError _ => true | _ => false end.

Definition is_SerialException (e : exn) : bool :=
  match e with SerialException _ => true | _ => false end.

Definition is_IOError (e : exn) : bool :=
  match e with IOError _ | SerialException _ => true | _ => false end.

Inductive result (A : Type) : Type :=
| Ok (a : A)
| Raise (e : exn).

Arguments Ok {A} a.
Arguments Raise {A} e.

(** What [pkg_resources.EntryPoint.parse] returns, as far as
    [generate_main_py] reads it. *)
Record EntryPoint : Type := {
  module_name : string;
  attrs : list string
}.

(** The four values the [mode] option of [reset] can take. *)
Inductive reset_mode : Type := BOOTLOADER | NORMAL | SOFT | SAFE_MODE.

Definition mode_name (m : reset_mode) : string :=
  match m with
  | BOOTLOADER => "BOOTLOADER"
  | NORMAL => "NORMAL"
  | SOFT => "SOFT"
  | SAFE_MODE => "SAFE_MODE"
  end.

(** [repr(mode)]: the names hold neither quote nor backslash. *)
Definition repr_mode (m : reset_mode) : string := "'" ++ mode_name m ++ "'".

(** Everything the two modules call and do not define: the remote file
    service [ampy.files.Files], the protocol manager [ampy.pyboard.Pyboard],
    [pathlib] and the host file system, [hashlib], the codecs and
    [pkg_resources].  [dev] is the state of the attached board together
    with its serial link, [hst] the state of the host file system.  An
    operation on the board returns the new state also when it raises. *)
Class Externals : Type := {
  dev : Type;
  hst : Type;
  lpath : Type;
  (* ampy.files *)
  files_canonicalize_remote_path : string -> dev -> dev * result string;
  files_isdir : string -> dev -> dev * result bool;
  files_ls : string -> bool -> bool -> dev -> dev * result (list string);
  files_get : string -> dev -> dev * result string;
  files_put : string -> string -> dev -> dev * result unit;
  files_mkdir : string -> bool -> dev -> dev * result unit;
  files_rm : string -> dev -> dev * result unit;
  files_checksum : string -> dev -> dev * result string;
  files_run : string -> bool -> bool -> hst -> dev -> dev * result (option string);
  strip_docstrings_and_comments : string -> result string;
  (* ampy.pyboard *)
  pyboard_enter_raw_repl : dev -> dev * result unit;
  pyboard_exit_raw_repl : dev -> dev * result unit;
  pyboard_exec_ : string -> dev -> dev * result string;
  pyboard_eval : string -> dev -> dev * result string;
  pyboard_exec_raw_no_follow : string -> dev -> dev * result unit;
  (* pathlib and the host file system *)
  path_of_str : string -> lpath;
  path_str : lpath -> string;
  path_name : lpath -> string;
  path_parent : lpath -> lpath;
  path_div : lpath -> string -> lpath;
  path_joinpath : lpath -> lpath -> lpath;
  path_relative_to : lpath -> lpath -> result lpath;
  path_exists : lpath -> hst -> bool;
  path_is_dir : lpath -> hst -> bool;
  path_is_file : lpath -> hst -> bool;
  path_mkdir : lpath -> bool -> bool -> hst -> hst * result unit;
  path_write_bytes : lpath -> string -> hst -> hst * result unit;
  read_bytes : string -> hst -> result string;
  (* codecs, hashlib, repr, pkg_resources; [sha256_hexdigest] is the hex
     digest as ASCII bytes, hashlib.sha256(contents).hexdigest() encoded *)
  decode_utf8 : string -> result string;
  encode_utf8 : string -> result string;
  sha256_hexdigest : string -> string;
  repr_bytes : string -> string;
  EntryPoint_parse : string -> result EntryPoint
}.

(** The calls issued to the board, as the log records them. *)
Inductive call : Type :=
| CallCanonicalize (path : string)
| CallIsdir (path : string)
| CallLs (path : string) (long_format recursive : bool)
| CallGet (path : string)
| CallPut (path contents : string)
| CallMkdir (path : string) (exists_okay : bool)
| CallRm (path : string)
| CallChecksum (path : string)
| CallRun (local_file : string) (wait follow : bool)
| CallEnterRawRepl
| CallExitRawRepl
| CallExec (code : string)
| CallEval (expression : string)
| CallExecRawNoFollow (code : string).

Section Commands.

Context {E : Externals}.

Record world : Type := {
  board : dev;
  host : hst;
  stdout : list string;
  stderr : list string;
  calls : list call
}.

(** A command: it transforms the world and returns or raises. *)
Definition M (A : Type) : Type := world -> world * result A.

Definition ret {A : Type} (a : A) : M A := fun w => (w, Ok a).

Definition raise {A : Type} (e : exn) : M A := fun w => (w, Raise e).

Definition bind {A B : Type} (m : M A) (k : A -> M B) : M B :=
  fun w =>
    match m w with
    | (w', Ok a) => k a w'
    | (w', Raise e) => (w', Raise e)
    end.

(** [try: m  except: h e]; a handler re-raises what its clause does not
    name. *)
Definition try_except {A : Type} (m : M A) (h : exn -> M A) : M A :=
  fun w =>
    match m w with
    | (w', Ok a) => (w', Ok a)
    | (w', Raise e) => h e w'
    end.

Definition lift {A : Type} (r : result A) : M A := fun w => (w, r).

Definition when (b : bool) (m : M unit) : M unit := if b then m else ret tt.

(** [for x in xs: body x]. *)
Fixpoint for_each {A : Type} (xs : list A) (body : A -> M unit) : M unit :=
  match xs with
  | [] => ret tt
  | x :: rest => bind (body x) (fun _ => for_each rest body)
  end.

(** [print(text)] and [print(text, end=...)] with an empty end. *)
Definition print (text : string) : M unit :=
  fun w => ({| board := board w; host := host w;
               stdout := stdout w ++ [(text ++ LF)%string]; stderr := stderr w;
               calls := calls w |}, Ok tt).

Definition print_no_end (text : string) : M unit :=
  fun w => ({| board := board w; host := host w;
               stdout := stdout w ++ [text]; stderr := stderr w;
               calls := calls w |}, Ok tt).

(** [print(text, file=sys.stderr)] and [click.echo(text, err=True)]. *)
Definition eprint (text : string) : M unit :=
  fun w => ({| board := board w; host := host w;
               stdout := stdout w; stderr := stderr w ++ [(text ++ LF)%string];
               calls := calls w |}, Ok tt).

(** A call on the board: logged, then answered by the board. *)
Definition on_board {A : Type} (c : call) (op : dev -> dev * result A) : M A :=
  fun w =>
    let '(b', r) := op (board w) in
    ({| board := b'; host := host w; stdout := stdout w; stderr := stderr w;
        calls := calls w ++ [c] |}, r).

Definition on_host {A : Type} (op : hst -> hst * result A) : M A :=
  fun w =>
    let '(h', r) := op (host w) in
    ({| board := board w; host := h'; stdout := stdout w; stderr := stderr w;
        calls := calls w |}, r).

Definition ask_host {A : Type} (q : hst -> A) : M A :=
  fun w => (w, Ok (q (host w))).

End Commands.

Declare Scope cmd_scope.
Delimit Scope cmd_scope with cmd.
Notation "x <- m ;; k" := (bind m (fun x => k))
  (at level 61, m at next level, right associativity) : cmd_scope.
Notation "m ;; k" := (bind m (fun _ => k))
  (at level 61, right associativity) : cmd_scope.

(* ================================================================= *)
(** ** The commands of [cli.py] *)

Section Cli.

Context {E : Externals}.

Local Open Scope cmd_scope.

(** *** [rm] *)

(** The body of the loop over the targets. *)
Definition rm_one (verbose force : bool) (filepath : string) : M unit :=
  when verbose
    (print ((if force then "rm -f" else "rm") ++ " " ++ filepath)%string) ;;
  try_except
    (on_board (CallRm filepath) (files_rm filepath))
    (fun e =>
       if is_RuntimeError e then
         if negb force then raise e
         else if verbose
              then eprint ("Warning: " ++ filepath ++ " does not exist")%string
              else ret tt
       else raise e).

Definition rm (remote_files : list string) (verbose force : bool) : M unit :=
  for_each remote_files (rm_one verbose force).

(** *** [mkdir] *)

(** The loop over [directory.split("/")[1:-1]], with the path built so
    far. *)
Fixpoint mkdir_parents (dirpath : string) (dirs : list string) : M unit :=
  match dirs with
  | [] => ret tt
  | dir :: rest =>
      let dirpath := (dirpath ++ "/" ++ dir)%string in
      on_board (CallMkdir dirpath true) (files_mkdir dirpath true) ;;
      mkdir_parents dirpath rest
  end.

Definition mkdir (directory : string) (exists_okay make_parents : bool) : M unit :=
  directory <-
    (if make_parents then
       first <- match directory with
                | EmptyString => raise IndexError
                | String c _ => ret c
                end ;;
       let directory :=
         if negb (Ascii.eqb first "/") then ("/" ++ directory)%string
         else directory in
       mkdir_parents EmptyString (slice_1_m1 (split "/" directory)) ;;
       ret directory
     else ret directory) ;;
  on_board (CallMkdir directory exists_okay) (files_mkdir directory exists_okay).

(** *** [run] *)

Definition run (local_file : string) (no_output : bool) : M unit :=
  try_except
    (output <- (fun w =>
                  on_board (CallRun local_file (negb no_output) (negb no_output))
                    (files_run local_file (negb no_output) (negb no_output)
                       (host w)) w) ;;
     match output with
     | Some out => text <- lift (decode_utf8 out) ;; print_no_end text
     | None => ret tt
     end)
    (fun e =>
       if is_IOError e
       then eprint ("Failed to find or read input file: " ++ local_file)%string
       else raise e).

(** *** [reset] *)

(** The helper defined on the board before a reset other than the soft
    one. *)
Definition reset_helper_code : string :=
  join LF
    [ "if 1:";
      "        def on_next_reset(x):";
      "            try:";
      "                import microcontroller";
      "            except:";
      "                if x == 'NORMAL': return ''";
      "                return 'Reset mode only supported on CircuitPython'";
      "            try:";
      "                microcontroller.on_next_reset(getattr(microcontroller.RunMode, x))";
      "            except ValueError as e:";
      "                return str(e)";
      "            return ''";
      "        def reset():";
      "            try:";
      "                import microcontroller";
      "            except:";
      "                import machine as microcontroller";
      "            microcontroller.reset()";
      "    " ]%string.

Definition reset_request (mode : reset_mode) : string :=
  ("on_next_reset(" ++ repr_mode mode ++ ")")%string.

Definition reset (mode : reset_mode) : M unit :=
  on_board CallEnterRawRepl pyboard_enter_raw_repl ;;
  match mode with
  | SOFT => on_board CallExitRawRepl pyboard_exit_raw_repl
  | _ =>
      on_board (CallExec reset_helper_code) (pyboard_exec_ reset_helper_code) ;;
      r <- on_board (CallEval (reset_request mode))
             (pyboard_eval (reset_request mode)) ;;
      print ("here we are " ++ repr_bytes r)%string ;;
      if truthy r then eprint r
      else
        try_except
          (on_board (CallExecRawNoFollow "reset()")
             (pyboard_exec_raw_no_follow "reset()"))
          (fun e => if is_SerialException e then ret tt else raise e)
  end.

(** *** [put]: the copy of one file, [copy_file] *)

(** The bytes to send and, when the source was stripped, the bytes read. *)
Definition load_contents (strip : bool) (local_filepath : string)
  : M (string * option string) :=
  contents <- (fun w => (w, read_bytes local_filepath (host w))) ;;
  if strip && endswith local_filepath ".py" then
    match strip_docstrings_and_comments contents with
    | Raise _ =>
        print ("Warning: could not strip " ++ local_filepath)%string ;;
        ret (contents, None)
    | Ok text =>
        encoded <- lift (encode_utf8 text) ;;
        ret (encoded, Some contents)
    end
  else ret (contents, None).

(** [checksum_matches] after the [try] around [board_files.checksum]. *)
Definition remote_checksum_matches (checksum : bool)
    (remote_filepath contents : string) : M bool :=
  if checksum then
    remotehash <-
      try_except
        (h <- on_board (CallChecksum remote_filepath)
                (files_checksum remote_filepath) ;;
         ret (Some h))
        (fun _ => ret None) ;;
    match remotehash with
    | None => ret false
    | Some h => ret (String.eqb h (sha256_hexdigest contents))
    end
  else ret false.

Definition copy_message (checksum_matches : bool)
    (local_filepath remote_filepath contents : string)
    (old_contents : option string) : string :=
  ((if checksum_matches then "skip" else "copy") ++ " " ++ local_filepath
   ++ " -> " ++ remote_filepath
   ++ match old_contents with
      | Some old =>
          "  (" ++ str_of_nat (String.length old) ++ " bytes -> "
          ++ str_of_nat (String.length contents) ++ " bytes)"
      | None => EmptyString
      end)%string.

(** Returns the number of bytes written to the board. *)
Definition copy_file (strip checksum verbose : bool)
    (local_filepath remote_filepath : string) : M nat :=
  loaded <- load_contents strip local_filepath ;;
  let '(contents, old_contents) := loaded in
  checksum_matches <- remote_checksum_matches checksum remote_filepath contents ;;
  when verbose
    (print (copy_message checksum_matches local_filepath remote_filepath
              contents old_contents)) ;;
  if negb checksum_matches then
    on_board (CallPut remote_filepath contents)
      (files_put remote_filepath contents) ;;
    ret (String.length contents)
  else ret 0.

(** *** [get] *)

Definition get_file (verbose : bool) (remote_file : string)
    (destination : option lpath) : M unit :=
  contents <- on_board (CallGet remote_file) (files_get remote_file) ;;
  let to_stdout := text <- lift (decode_utf8 contents) ;; print text in
  match destination with
  | None => to_stdout
  | Some destination =>
      if String.eqb (path_str destination) "-" then to_stdout
      else
        let remote_path := path_of_str remote_file in
        is_dir <- ask_host (path_is_dir destination) ;;
        let destination :=
          if is_dir then path_div destination (path_name remote_path)
          else destination in
        when verbose
          (print (remote_file ++ " -> " ++ path_str destination)%string) ;;
        on_host (path_write_bytes destination contents)
  end.

(** One entry of the recursive listing of a remote directory. *)
Definition get_subpath (verbose : bool) (remote_path current_local_dir : lpath)
    (x : string) : M unit :=
  let subpath := path_of_str x in
  relpath <- lift (path_relative_to subpath remote_path) ;;
  let current_local_file := path_joinpath current_local_dir relpath in
  on_host (path_mkdir (path_parent current_local_file) true true) ;;
  is_dir <- on_board (CallIsdir (path_str subpath))
              (files_isdir (path_str subpath)) ;;
  if is_dir then on_host (path_mkdir current_local_file false true)
  else get_file verbose (path_str subpath) (Some current_local_file).

Definition get_one (verbose : bool) (local_path : option lpath)
    (remote_file : string) : M unit :=
  remote_file <- on_board (CallCanonicalize remote_file)
                   (files_canonicalize_remote_path remote_file) ;;
  is_dir <- on_board (CallIsdir remote_file) (files_isdir remote_file) ;;
  if is_dir then
    let remote_path := path_of_str remote_file in
    local_dir <-
      match local_path with
      | None =>
          raise (UsageError "Remote directory needs a local directory destination")
      | Some p =>
          is_file <- ask_host (path_is_file p) ;;
          if is_file
          then raise (UsageError "Remote directory needs a local directory destination")
          else ret p
      end ;;
    local_is_dir <- ask_host (path_is_dir local_dir) ;;
    let current_local_dir :=
      if local_is_dir && negb (String.eqb remote_file "/")
      then path_div local_dir (path_name remote_path)
      else local_dir in
    tree <- on_board (CallLs remote_file false true)
              (files_ls remote_file false true) ;;
    for_each tree (get_subpath verbose remote_path current_local_dir)
  else get_file verbose remote_file local_path.

Definition get (remote_files : list string) (local_path : option lpath)
    (verbose : bool) : M unit :=
  (* a single argument is the remote file *)
  let '(remote_files, local_path) :=
    match remote_files, local_path with
    | [], Some p => ([path_str p], None)
    | _, _ => (remote_files, local_path)
    end in
  (if Nat.eqb (List.length remote_files) 0
   then raise (UsageError "Must specify at least one remote file")
   else ret tt) ;;
  (if Nat.ltb 1 (List.length remote_files) then
     match local_path with
     | None => raise AttributeError
     | Some p =>
         is_dir <- ask_host (path_is_dir p) ;;
         if negb is_dir
         then raise (UsageError
                ("Invalid value for '[LOCAL_PATH]': Directory '" ++ path_str p
                 ++ "' does not exist.")%string)
         else ret tt
     end
   else ret tt) ;;
  for_each remote_files (get_one verbose local_path).

End Cli.

(* ================================================================= *)
(** ** Entrypoint generation ([firmware_builder.py]) *)

Section FirmwareBuilder.

Context {E : Externals}.

Definition AUTOGENERATED_WARNING : string :=
  ("# Generated by ampy!" ++ LF
   ++ "# You probably don't need to modify this file. " ++ LF
   ++ "# It shall be automatically overwritten without warning." ++ LF)%string.

(** What the loop over the modules writes: it stops at the first module
    it writes an import for. *)
Fixpoint scan_modules (modules : list lpath) (h : hst) : string :=
  match modules with
  | [] => EmptyString
  | module :: rest =>
      if path_is_dir module h then
        if negb (path_exists (path_div module "__main__.py") h)
        then scan_modules rest h
        else ("import " ++ path_name module ++ ".__main__" ++ LF)%string
      else ("import " ++ path_name module ++ LF)%string
  end.

Definition generate_main_py (entrypoint : option string)
    (modules : list lpath) (h : hst) : result string :=
  match entrypoint with
  | Some entrypoint =>
      match EntryPoint_parse ("name=" ++ entrypoint ++ " [extras]") with
      | Raise e => Raise e
      | Ok entrypoint_obj =>
          Ok (AUTOGENERATED_WARNING
              ++ "import " ++ module_name entrypoint_obj ++ LF
              ++ match attrs entrypoint_obj with
                 | [] => EmptyString
                 | attr0 :: _ =>
                     module_name entrypoint_obj ++ "." ++ attr0 ++ "()" ++ LF
                 end)%string
      end
  | None => Ok (AUTOGENERATED_WARNING ++ scan_modules modules h)%string
  end.

End FirmwareBuilder.

(* ================================================================= *)
(** ** A small board and host, to run the commands on *)

Module Sample.

(** A file tree: each path with [None] for a directory or the bytes of a
    file.  The root always exists. *)
Definition tree : Type := list (string * option string).

Fixpoint lookup (p : string) (t : tree) : option (option string) :=
  match t with
  | [] => None
  | (q, node) :: rest => if String.eqb q p then Some node else lookup p rest
  end.

Definition remove (p : string) (t : tree) : tree :=
  filter (fun e => negb (String.eqb (fst e) p)) t.

Definition parent_of (p : string) : string :=
  ("/" ++ join "/" (slice_1_m1 (split "/" p)))%string.

Definition exists_in (p : string) (t : tree) : bool :=
  String.eqb p "/" || match lookup p t with Some _ => true | None => false end.

Definition is_dir_in (p : string) (t : tree) : bool :=
  String.eqb p "/" || match lookup p t with Some None => true | _ => false end.

Definition is_file_in (p : string) (t : tree) : bool :=
  match lookup p t with Some (Some _) => true | _ => false end.

Definition has_children (p : string) (t : tree) : bool :=
  existsb (fun e => String.prefix (p ++ "/") (fst e)) t.

Definition sample_rm (p : string) (t : tree) : tree * result unit :=
  match lookup p t with
  | None => (t, Raise (RuntimeError ("No such file/directory: " ++ p)))
  | Some _ =>
      if has_children p t
      then (t, Raise (RuntimeError ("Directory is not empty: " ++ p)))
      else (remove p t, Ok tt)
  end.

Definition sample_mkdir (p : string) (exists_okay : bool) (t : tree)
  : tree * result unit :=
  if exists_in p t then
    if exists_okay then (t, Ok tt)
    else (t, Raise (DirectoryExistsError ("Directory already exists: " ++ p)))
  else if is_dir_in (parent_of p) t then (t ++ [(p, None)], Ok tt)
  else (t, Raise (RuntimeError ("Could not create directory: " ++ p))).

(** A stand-in for the digest: any function of the bytes will do here. *)
Definition sample_digest (contents : string) : string :=
  ("sha256:" ++ contents)%string.

Definition sample_checksum (p : string) (t : tree) : tree * result string :=
  match lookup p t with
  | Some (Some contents) => (t, Ok (sample_digest contents))
  | _ => (t, Raise (RuntimeError ("No such file: " ++ p)))
  end.

Definition sample_get (p : string) (t : tree) : tree * result string :=
  match lookup p t with
  | Some (Some contents) => (t, Ok contents)
  | _ => (t, Raise (RuntimeError ("No such file: " ++ p)))
  end.

Definition sample_put (p contents : string) (t : tree) : tree * result unit :=
  (remove p t ++ [(p, Some contents)], Ok tt).

Definition sample_ls (p : string) (long_format recursive : bool) (t : tree)
  : tree * result (list string) :=
  (t, Ok (map fst (filter (fun e => String.prefix (p ++ "/") (fst e)) t))).

Definition sample_run (local_file : string) (wait follow : bool)
    (h : tree) (t : tree) : tree * result (option string) :=
  match lookup local_file h with
  | Some (Some _) => (t, Ok (if wait then Some EmptyString else None))
  | _ => (t, Raise (IOError ("No such file or directory: " ++ local_file)))
  end.

Definition sample_name (p : string) : string := last (split "/" p) EmptyString.

Definition sample_relative_to (p base : string) : result string :=
  let b := (base ++ "/")%string in
  if String.prefix b p
  then Ok (substring (String.length b) (String.length p - String.length b) p)
  else Raise (ValueError "not in the subpath").

Definition sample_path_mkdir (p : string) (parents exist_ok : bool) (h : tree)
  : tree * result unit :=
  if exists_in p h then
    if exist_ok then (h, Ok tt) else (h, Raise (IOError "File exists"))
  else (h ++ [(p, None)], Ok tt).

Definition sample_read (p : string) (h : tree) : result string :=
  match lookup p h with
  | Some (Some contents) => Ok contents
  | _ => Raise (IOError ("No such file or directory: " ++ p))
  end.

(** Reads [name=<module>[:<attrs>] [extras]]; the attributes are split
    at the dots. *)
Definition sample_parse (src : string) : result EntryPoint :=
  let n := String.length src in
  if String.prefix "name=" src && endswith src " [extras]" then
    match split ":" (substring 5 (n - 14) src) with
    | [m] => Ok {| module_name := m; attrs := [] |}
    | [m; a] => Ok {| module_name := m; attrs := split "." a |}
    | _ => Raise (ValueError "EntryPoint must be in 'name=module:attrs [extras]' format")
    end
  else Raise (ValueError "EntryPoint must be in 'name=module:attrs [extras]' format").

#[export] Instance sample_env : Externals := {|
  dev := tree;
  hst := tree;
  lpath := string;
  files_canonicalize_remote_path := fun p t =>
    (t, Ok (if String.prefix "/" p then p else "/" ++ p)%string);
  files_isdir := fun p t => (t, Ok (is_dir_in p t));
  files_ls := sample_ls;
  files_get := sample_get;
  files_put := sample_put;
  files_mkdir := sample_mkdir;
  files_rm := sample_rm;
  files_checksum := sample_checksum;
  files_run := sample_run;
  strip_docstrings_and_comments := fun s => Ok s;
  pyboard_enter_raw_repl := fun t => (t, Ok tt);
  pyboard_exit_raw_repl := fun t => (t, Ok tt);
  pyboard_exec_ := fun _ t => (t, Ok EmptyString);
  pyboard_eval := fun _ t => (t, Ok EmptyString);
  pyboard_exec_raw_no_follow := fun _ t =>
    (t, Raise (SerialException "device disconnected"));
  path_of_str := fun s => s;
  path_str := fun p => p;
  path_name := sample_name;
  path_parent := parent_of;
  path_div := fun p n => (p ++ "/" ++ n)%string;
  path_joinpath := fun p q => (p ++ "/" ++ q)%string;
  path_relative_to := sample_relative_to;
  path_exists := exists_in;
  path_is_dir := is_dir_in;
  path_is_file := is_file_in;
  path_mkdir := sample_path_mkdir;
  path_write_bytes := fun p c h => (remove p h ++ [(p, Some c)], Ok tt);
  read_bytes := sample_read;
  decode_utf8 := fun s => Ok s;
  encode_utf8 := fun s => Ok s;
  sha256_hexdigest := sample_digest;
  repr_bytes := fun s => ("b'" ++ s ++ "'")%string;
  EntryPoint_parse := sample_parse
|}.

Definition make_world (remote local : tree) (out err : list string)
    (cs : list call) : world :=
  {| board := remote; host := local; stdout := out; stderr := err;
     calls := cs |}.

Definition world0 (remote local : tree) : world :=
  make_world remote local [] [] [].

End Sample.

(* ================================================================= *)
(** ** Vocabulary of the statements *)

Section Vocabulary.

Context {E : Externals}.

(** A module the implicit entrypoint can be taken from: a directory
    holding [__main__.py], or anything that is not a directory. *)
Definition applicable (h : hst) (module : lpath) : bool :=
  if path_is_dir module h
  then path_exists (path_div module "__main__.py") h
  else true.

(** The import statement written for an applicable module. *)
Definition import_line (h : hst) (module : lpath) : string :=
  (if path_is_dir module h
   then "import " ++ path_name module ++ ".__main__" ++ LF
   else "import " ++ path_name module ++ LF)%string.

(** The remote path spelled by its segments, from the root. *)
Definition remote_path_of (segments : list string) : string :=
  ("/" ++ join "/" segments)%string.

(** The non-empty prefixes of a list, shortest first. *)
Fixpoint prefixes {A : Type} (l : list A) : list (list A) :=
  match l with
  | [] => []
  | x :: r => [x] :: map (cons x) (prefixes r)
  end.

(** The ancestors of the directory [parents ++ [leaf]], from the root
    down. *)
Definition ancestors (parents : list string) : list string :=
  map remote_path_of (prefixes parents).

Definition no_slash (segment : string) : Prop := has_char "/" segment = false.

(** One creation request on the board. *)
Definition create (exists_okay : bool) (path : string) : M unit :=
  on_board (CallMkdir path exists_okay) (files_mkdir path exists_okay).

(** The board after deleting the targets one after the other, whatever
    each deletion answers, and the targets whose deletion raised. *)
Fixpoint delete_all (targets : list string) (b : dev) : dev * list string :=
  match targets with
  | [] => (b, [])
  | t :: rest =>
      let '(b1, r) := files_rm t b in
      let '(b2, failed) := delete_all rest b1 in
      (b2, match r with Ok _ => failed | Raise _ => t :: failed end)
  end.

(** The lines [rm] writes for a target: the warning on the error stream
    and, under [--verbose], the echo of the command. *)
Definition rm_warning (target : string) : string :=
  (("Warning: " ++ target ++ " does not exist") ++ LF)%string.

Definition rm_echo (force : bool) (target : string) : string :=
  (((if force then "rm -f" else "rm") ++ " " ++ target) ++ LF)%string.

(** The world with another board, more output and more calls. *)
Definition extend (w : world) (b : dev) (out err : list string)
    (cs : list call) : world :=
  {| board := b; host := host w; stdout := stdout w ++ out;
     stderr := stderr w ++ err; calls := calls w ++ cs |}.

(** Sending the bytes of a file: the board afterwards, and the number of
    bytes written unless the board raised. *)
Definition upload (remote_filepath contents : string) (b : dev)
  : dev * result nat :=
  let '(b', r) := files_put remote_filepath contents b in
  (b', match r with
       | Ok _ => Ok (String.length contents)
       | Raise e => Raise e
       end).

(** A command only adds to the log of the calls on the board. *)
Definition grows {A : Type} (m : M A) : Prop :=
  forall w, exists l, calls (fst (m w)) = calls w ++ l.

(** The arguments for which [get] has nothing to fetch, or several files
    and no existing local directory to put them in. *)
Definition get_misused (remote_files : list string)
    (local_path : option lpath) (h : hst) : Prop :=
  (remote_files = [] /\ local_path = None)
  \/ (1 < List.length remote_files
      /\ exists p, local_path = Some p /\ path_is_dir p h = false).

(** An entrypoint specifier and what [EntryPoint.parse] makes of it: the
    attribute path is split at its dots. *)
Definition specifier (module : string) (callable : option string) : string :=
  match callable with
  | None => module
  | Some c => (module ++ ":" ++ c)%string
  end.

Definition parsed (module : string) (callable : option string) : EntryPoint :=
  {| module_name := module;
     attrs := match callable with None => [] | Some c => split "." c end |}.

End Vocabulary.

(* ================================================================= *)
(** ** More of [cli.py]: [ls] and [put] *)

(** What [put] calls besides the collaborators above: [os.path],
    [os.walk] and [posixpath].  The walk only reads the host, so it is a
    function of the host's state. *)
Class OsPath {E : Externals} : Type := {
  os_basename_abspath : string -> hst -> string;
  os_path_isdir : string -> hst -> bool;
  os_walk : string -> hst -> list (string * list string * list string);
  os_path_relpath : string -> string -> hst -> result string;
  os_path_join : string -> string -> string;
  posixpath_join : string -> string -> string;
  posixpath_normpath : string -> string
}.

(** Modelled from the spec: the default of [exists_okay] in
    [files.Files.mkdir], which [put] relies on; the spec gives it as
    false. *)
Definition mkdir_default_exists_okay : bool := false.

Section MoreCli.

Context {E : Externals} {O : OsPath}.

Local Open Scope cmd_scope.

(** *** [ls] *)

Definition ls (directory : string) (long_format recursive : bool) : M unit :=
  entries <- on_board (CallLs directory long_format recursive)
               (files_ls directory long_format recursive) ;;
  for_each entries print.

(** *** [put] *)

(** [for x in xs: bytes_written += body x], from the count so far. *)
Fixpoint add_each {A : Type} (bytes_written : nat) (xs : list A)
    (body : A -> M nat) : M nat :=
  match xs with
  | [] => ret bytes_written
  | x :: rest =>
      n <- body x ;;
      add_each (bytes_written + n) rest body
  end.

(** The remote directory for one directory of the walk. *)
Definition put_mkdir (verbose : bool) (remote_parent : string) : M unit :=
  try_except
    (when verbose (print ("mkdir " ++ remote_parent)%string) ;;
     on_board (CallMkdir remote_parent mkdir_default_exists_okay)
       (files_mkdir remote_parent mkdir_default_exists_okay))
    (fun e =>
       match e with
       | DirectoryExistsError _ => ret tt
       | _ => raise e
       end).

(** One step of the walk, from the count so far: the directory, then its
    files. *)
Definition put_entry (verbose strip checksum : bool) (local remote : string)
    (bytes_written : nat) (entry : string * list string * list string)
  : M nat :=
  let '(parent, child_dirs, child_files) := entry in
  relative <- (fun w => (w, os_path_relpath parent local (host w))) ;;
  let remote_parent := posixpath_normpath (posixpath_join remote relative) in
  put_mkdir verbose remote_parent ;;
  add_each bytes_written child_files (fun filename =>
    copy_file strip checksum verbose (os_path_join parent filename)
      (posixpath_join remote_parent filename)).

(** The loop over the walk. *)
Fixpoint put_walk (verbose strip checksum : bool) (local remote : string)
    (bytes_written : nat)
    (entries : list (string * list string * list string)) : M nat :=
  match entries with
  | [] => ret bytes_written
  | entry :: rest =>
      n <- put_entry verbose strip checksum local remote bytes_written entry ;;
      put_walk verbose strip checksum local remote n rest
  end.

Definition put (local : string) (remote : option string)
    (verbose strip checksum : bool) : M unit :=
  remote <- match remote with
            | None => ask_host (os_basename_abspath local)
            | Some r => ret r
            end ;;
  is_dir <- ask_host (os_path_isdir local) ;;
  bytes_written <-
    (if is_dir then
       entries <- ask_host (os_walk local) ;;
       put_walk verbose strip checksum local remote 0 entries
     else
       n <- copy_file strip checksum verbose local remote ;;
       ret (0 + n)) ;;
  when verbose
    (print EmptyString ;;
     print ("Wrote " ++ str_of_nat bytes_written
            ++ " bytes to the micropython board")%string).

End MoreCli.

(** The sample host for [put]: paths are joined with a slash, and the
    walk lists the directories of the tree that lie under the start. *)
Module SampleOs.

Import Sample.

Definition children (kind : option string -> bool) (p : string) (t : tree)
  : list string :=
  map (fun e => substring (String.length p + 1)
                  (String.length (fst e) - String.length p - 1) (fst e))
    (filter (fun e =>
               String.prefix (p ++ "/") (fst e)
               && negb (has_char "/"
                          (substring (String.length p + 1)
                             (String.length (fst e) - String.length p - 1)
                             (fst e)))
               && kind (snd e)) t).

Definition is_none (n : option string) : bool :=
  match n with None => true | Some _ => false end.

Definition walk (start : string) (t : tree)
  : list (string * list string * list string) :=
  map (fun d => (d, children is_none d t, children (fun n => negb (is_none n)) d t))
    (start :: map fst (filter (fun e => String.prefix (start ++ "/") (fst e)
                                        && is_none (snd e)) t)).

Definition relpath (p start : string) (t : tree) : result string :=
  if String.eqb p start then Ok "."
  else sample_relative_to p start.

Definition join2 (a b : string) : string := (a ++ "/" ++ b)%string.

Definition normpath (p : string) : string :=
  if endswith p "/." then substring 0 (String.length p - 2) p else p.

#[export] Instance sample_os : OsPath (E := sample_env) := {|
  os_basename_abspath := fun p _ => sample_name p;
  os_path_isdir := is_dir_in;
  os_walk := walk;
  os_path_relpath := relpath;
  os_path_join := join2;
  posixpath_join := join2;
  posixpath_normpath := normpath
|}.

End SampleOs.

(* ================================================================= *)
(** ** More vocabulary *)

Section MoreVocabulary.

Context {E : Externals}.

(** The port names the rewrite leaves alone: [COM<N>] with [N < 10],
    with or without one final newline. *)
Definition low_com (port : string) : Prop :=
  exists ds, all_digits ds = true /\ ds <> EmptyString
             /\ (int_of_digits ds < 10)%N
             /\ (port = ("COM" ++ ds)%string
                 \/ port = ("COM" ++ ds ++ LF)%string).

Definition is_DirectoryExistsError (e : exn) : bool :=
  match e with DirectoryExistsError _ => true | _ => false end.

(** The line [put] echoes under [--verbose] before it asks for a
    directory. *)
Definition put_mkdir_echo (remote_parent : string) : string :=
  (("mkdir " ++ remote_parent) ++ LF)%string.

(** The two lines that close a verbose [put]. *)
Definition put_report (bytes_written : nat) : list string :=
  [(EmptyString ++ LF)%string;
   (("Wrote " ++ str_of_nat bytes_written
     ++ " bytes to the micropython board") ++ LF)%string].

(** A command leaves the host as it is. *)
Definition keeps_host {A : Type} (m : M A) : Prop :=
  forall w, host (fst (m w)) = host w.

(** A command writes on neither stream. *)
Definition silent {A : Type} (m : M A) : Prop :=
  forall w, stdout (fst (m w)) = stdout w /\ stderr (fst (m w)) = stderr w.

End MoreVocabulary.

(** A board whose link is broken: deleting, running and the reset call
    raise the given exception, the reset helper gives the given answer,
    and stripping fails.  The rest is the sample board. *)
Module Faulty.

Import Sample.

Definition unsupported : string := "Reset mode only supported on CircuitPython".

Definition faulty_env (fault : exn) (answer : string) : Externals := {|
  dev := tree;
  hst := tree;
  lpath := string;
  files_canonicalize_remote_path :=
    files_canonicalize_remote_path (Externals := sample_env);
  files_isdir := files_isdir (Externals := sample_env);
  files_ls := sample_ls;
  files_get := sample_get;
  files_put := sample_put;
  files_mkdir := sample_mkdir;
  files_rm := fun _ t => (t, Raise fault);
  files_checksum := sample_checksum;
  files_run := fun _ _ _ _ t => (t, Raise fault);
  strip_docstrings_and_comments := fun _ => Raise (ValueError "cannot strip");
  pyboard_enter_raw_repl := fun t => (t, Ok tt);
  pyboard_exit_raw_repl := fun t => (t, Ok tt);
  pyboard_exec_ := fun _ t => (t, Ok EmptyString);
  pyboard_eval := fun _ t => (t, Ok answer);
  pyboard_exec_raw_no_follow := fun _ t => (t, Raise fault);
  path_of_str := fun s => s;
  path_str := fun p => p;
  path_name := sample_name;
  path_parent := parent_of;
  path_div := fun p n => (p ++ "/" ++ n)%string;
  path_joinpath := fun p q => (p ++ "/" ++ q)%string;
  path_relative_to := sample_relative_to;
  path_exists := exists_in;
  path_is_dir := is_dir_in;
  path_is_file := is_file_in;
  path_mkdir := sample_path_mkdir;
  path_write_bytes := fun p c h => (remove p h ++ [(p, Some c)], Ok tt);
  read_bytes := sample_read;
  decode_utf8 := fun s => Ok s;
  encode_utf8 := fun s => Ok s;
  sha256_hexdigest := sample_digest;
  repr_bytes := fun s => ("b'" ++ s ++ "'")%string;
  EntryPoint_parse := sample_parse
|}.

Definition make_world (fault : exn) (answer : string) (remote local : tree)
    (out err : list string) (cs : list call)
  : world (E := faulty_env fault answer) :=
  @Build_world (faulty_env fault answer) remote local out err cs.

End Faulty.

(* ================================================================= *)
(** ** Facts about the string helpers *)

Section StringFacts.

Lemma append_empty_r (s : string) : (s ++ EmptyString)%string = s.
Proof. induction s as [|c s IH]; simpl; [reflexivity | now rewrite IH]. Qed.

Lemma append_assoc (a b c : string) :
  ((a ++ b) ++ c)%string = (a ++ (b ++ c))%string.
Proof. induction a as [|x a IH]; simpl; [reflexivity | now rewrite IH]. Qed.

Lemma span_digits_sound (s ds tl : string) :
  span_digits s = (ds, tl) -> s = (ds ++ tl)%string /\ all_digits ds = true.
Proof.
  revert ds tl; induction s as [|c s IH]; simpl; intros ds tl H.
  - inversion H; subst; auto.
  - destruct (is_digit c) eqn:Hc.
    + destruct (span_digits s) as [ds' tl'] eqn:Hs.
      inversion H; subst; clear H.
      destruct (IH ds' tl eq_refl) as [-> Hd].
      simpl; rewrite Hc, Hd; auto.
    + inversion H; subst; auto.
Qed.

Lemma span_digits_all (ds : string) :
  all_digits ds = true -> span_digits ds = (ds, EmptyString).
Proof.
  induction ds as [|c ds IH]; simpl; intros H; [reflexivity|].
  apply andb_true_iff in H as [Hc Hd].
  now rewrite Hc, (IH Hd).
Qed.

Lemma match_COM_inv (port ds : string) :
  match_COM port = Some ds ->
  all_digits ds = true /\ ds <> EmptyString /\
  (port = ("COM" ++ ds)%string \/ port = ("COM" ++ ds ++ LF)%string).
Proof.
  unfold match_COM; intros H.
  destruct port as [|a p1]; [discriminate|].
  destruct a as [[] [] [] [] [] [] [] []]; try discriminate.
  destruct p1 as [|b p2]; [discriminate|].
  destruct b as [[] [] [] [] [] [] [] []]; try discriminate.
  destruct p2 as [|c rest]; [discriminate|].
  destruct c as [[] [] [] [] [] [] [] []]; try discriminate.
  destruct (span_digits rest) as [ds' tl] eqn:Hs.
  destruct (span_digits_sound _ _ _ Hs) as [-> Hd].
  destruct (truthy ds') eqn:Ht; simpl in H; [|discriminate].
  destruct (String.eqb tl EmptyString) eqn:H1; simpl in H.
  - inversion H; subst; clear H. apply String.eqb_eq in H1; subst.
    rewrite append_empty_r. repeat split; auto.
    intros ->; discriminate.
  - destruct (String.eqb tl LF) eqn:H2; [|discriminate].
    inversion H; subst; clear H. apply String.eqb_eq in H2; subst.
    repeat split; auto. intros ->; discriminate.
Qed.

Lemma match_COM_digits (ds : string) :
  all_digits ds = true -> ds <> EmptyString ->
  match_COM ("COM" ++ ds) = Some ds.
Proof.
  intros Hd Hne; unfold match_COM; simpl.
  rewrite (span_digits_all _ Hd).
  destruct ds; [contradiction|reflexivity].
Qed.

End StringFacts.

(* ================================================================= *)
(** ** Port names on Windows *)

(** C1, as stated, fails: on Windows a name that does not match the
    pattern is not left unchanged, it gets the device prefix. *)
Lemma windows_port_non_com_changed :
  match_COM "CNCA0" = None /\
  cli_port "Windows" "CNCA0" = "\\.\CNCA0" /\
  cli_port "Windows" "CNCA0" <> "CNCA0".
Proof. repeat split; try reflexivity. discriminate. Qed.

(** C1 (amended): on Windows a port name [COM<N>] with [N >= 10] becomes
    [\\.\COM<N>], a name [COM<N>] with [N < 10] is unchanged, and every
    name that does not match the pattern [COM<N>] (the pattern also
    admits one final newline) gets the prefix [\\.\] as well; on any other
    platform every name is unchanged. *)
Theorem windows_port_rewrite :
  (forall ds : string,
      all_digits ds = true -> ds <> EmptyString ->
      (10 <= int_of_digits ds)%N ->
      cli_port "Windows" ("COM" ++ ds) = ("\\.\COM" ++ ds)%string)
  /\ (forall ds : string,
      all_digits ds = true -> ds <> EmptyString ->
      (int_of_digits ds < 10)%N ->
      cli_port "Windows" ("COM" ++ ds) = ("COM" ++ ds)%string)
  /\ (forall port : string,
      (forall ds : string,
          all_digits ds = true -> ds <> EmptyString ->
          port <> ("COM" ++ ds)%string /\ port <> ("COM" ++ ds ++ LF)%string) ->
      cli_port "Windows" port = ("\\.\" ++ port)%string)
  /\ (forall platform_system port : string,
      platform_system <> "Windows" ->
      cli_port platform_system port = port).
Proof.
  repeat split.
  - intros ds Hd Hne Hn.
    unfold cli_port, windows_full_port_name.
    change (String.eqb "Windows" "Windows") with true; cbv iota.
    rewrite (match_COM_digits ds Hd Hne).
    apply N.ltb_ge in Hn; rewrite Hn. reflexivity.
  - intros ds Hd Hne Hn.
    unfold cli_port, windows_full_port_name.
    change (String.eqb "Windows" "Windows") with true; cbv iota.
    rewrite (match_COM_digits ds Hd Hne).
    apply N.ltb_lt in Hn; rewrite Hn. reflexivity.
  - intros port Hnot.
    unfold cli_port, windows_full_port_name.
    change (String.eqb "Windows" "Windows") with true; cbv iota.
    destruct (match_COM port) as [ds|] eqn:Hm; [|reflexivity].
    destruct (match_COM_inv _ _ Hm) as (Hd & Hne & Hs).
    destruct (Hnot ds Hd Hne) as [H1 H2].
    destruct Hs; contradiction.
  - intros platform_system port Hp.
    unfold cli_port.
    destruct (String.eqb platform_system "Windows") eqn:He; [|reflexivity].
    apply String.eqb_eq in He; contradiction.
Qed.

Lemma windows_port_rewrite_witness :
  cli_port "Windows" "COM10" = "\\.\COM10"
  /\ cli_port "Windows" "COM3" = "COM3"
  /\ cli_port "Windows" "/dev/ttyUSB0" = "\\.\/dev/ttyUSB0"
  /\ cli_port "Linux" "COM10" = "COM10".
Proof.
  destruct windows_port_rewrite as (Hhigh & Hlow & Hother & Hposix).
  split; [|split; [|split]].
  - apply (Hhigh "10"); [reflexivity | discriminate | vm_compute; discriminate].
  - apply (Hlow "3"); [reflexivity | discriminate | reflexivity].
  - apply (Hother "/dev/ttyUSB0"). intros ds _ _; split; simpl; discriminate.
  - apply (Hposix "Linux" "COM10"). discriminate.
Defined.

(* ================================================================= *)
(** ** Entrypoint generation *)

Section EntrypointFacts.

Context {E : Externals}.

Lemma split_not_nil (sep : ascii) (s : string) : split sep s <> [].
Proof.
  induction s as [|c s IH]; simpl; [discriminate|].
  destruct (Ascii.eqb c sep); [discriminate|].
  destruct (split sep s); [contradiction | discriminate].
Qed.

Lemma scan_modules_skips (h : hst) (skipped rest : list lpath) :
  forallb (fun m => negb (applicable h m)) skipped = true ->
  scan_modules (skipped ++ rest) h = scan_modules rest h.
Proof.
  induction skipped as [|m skipped IH]; simpl; intros H; [reflexivity|].
  apply andb_true_iff in H as [Hm Hs].
  unfold applicable in Hm.
  destruct (path_is_dir m h); [|discriminate].
  rewrite Hm. auto.
Qed.

Lemma scan_modules_applicable (h : hst) (m : lpath) (later : list lpath) :
  applicable h m = true ->
  scan_modules (m :: later) h = import_line h m.
Proof.
  unfold applicable, import_line; simpl; intros H.
  destruct (path_is_dir m h); [|reflexivity].
  now rewrite H.
Qed.

(** C2: with no entrypoint specifier, the script is the warning followed
    by the import of the first applicable module of the list and nothing
    else: the directories without [__main__.py] before it are skipped,
    a directory with one gives [import <name>.__main__], anything that is
    not a directory gives [import <name>], and the modules after it add
    nothing.  A list with no applicable module gives the warning alone. *)
Theorem implicit_entrypoint_first_applicable
    (modules skipped later : list lpath) (m : lpath) (h : hst) :
  modules = skipped ++ m :: later ->
  forallb (fun x => negb (applicable h x)) skipped = true ->
  applicable h m = true ->
  generate_main_py None modules h
    = Ok (AUTOGENERATED_WARNING ++ import_line h m)%string
  /\ generate_main_py None skipped h = Ok AUTOGENERATED_WARNING.
Proof.
  intros -> Hskip Hm; split; unfold generate_main_py.
  - rewrite (scan_modules_skips h skipped _ Hskip).
    now rewrite (scan_modules_applicable h m later Hm).
  - rewrite <- (app_nil_r skipped).
    rewrite (scan_modules_skips h skipped [] Hskip).
    change (scan_modules [] h) with EmptyString.
    now rewrite append_empty_r.
Qed.

(** C8, as the code has it: for a specifier [<module>] or
    [<module>:<callable>] that [EntryPoint.parse] reads as that module and
    the dotted path of the callable, the script is the warning, the line
    [import <module>] and, exactly when a callable was given, one call
    line; the call line names the first dotted component of the callable
    only, so it is [<module>.<callable>()] only for a callable without a
    dot.  The module list is not read. *)
Theorem explicit_entrypoint_script
    (module : string) (callable : option string)
    (modules : list lpath) (h : hst) :
  EntryPoint_parse ("name=" ++ specifier module callable ++ " [extras]")
    = Ok (parsed module callable) ->
  generate_main_py (Some (specifier module callable)) modules h
    = Ok (AUTOGENERATED_WARNING ++ "import " ++ module ++ LF
          ++ match callable with
             | None => EmptyString
             | Some c =>
                 module ++ "." ++ hd EmptyString (split "." c) ++ "()" ++ LF
             end)%string.
Proof.
  intros Hp; unfold generate_main_py; rewrite Hp.
  destruct callable as [c|]; simpl; [|reflexivity].
  destruct (split "." c) eqn:Hs; [|reflexivity].
  now destruct (split_not_nil "." c).
Qed.

End EntrypointFacts.

Lemma implicit_entrypoint_first_applicable_witness :
  let h := [("dirC", None); ("dirA", None); ("dirA/__main__.py", Some "run()");
            ("fileB.py", Some "pass")] in
  generate_main_py (E := Sample.sample_env) None ["dirC"; "dirA"; "fileB.py"] h
    = Ok (AUTOGENERATED_WARNING ++ "import dirA.__main__" ++ LF)%string
  /\ generate_main_py (E := Sample.sample_env) None ["dirC"] h
    = Ok AUTOGENERATED_WARNING.
Proof.
  intros h.
  apply (implicit_entrypoint_first_applicable (E := Sample.sample_env)
           _ (["dirC"] : list string) (["fileB.py"] : list string)
           ("dirA" : string) h); reflexivity.
Defined.

(** The script generated for [pkg.mod:obj.method] calls [pkg.mod.obj],
    not [pkg.mod.obj.method]. *)
Lemma explicit_entrypoint_script_witness :
  generate_main_py (E := Sample.sample_env) (Some "pkg.mod:obj.method") [] []
    = Ok (AUTOGENERATED_WARNING ++ "import pkg.mod" ++ LF
          ++ "pkg.mod.obj()" ++ LF)%string
  /\ generate_main_py (E := Sample.sample_env) (Some "pkg.mod:obj.method") [] []
    <> Ok (AUTOGENERATED_WARNING ++ "import pkg.mod" ++ LF
           ++ "pkg.mod.obj.method()" ++ LF)%string.
Proof.
  pose proof (explicit_entrypoint_script (E := Sample.sample_env)
                "pkg.mod" (Some "obj.method") [] [] eq_refl) as H.
  split; [exact H|].
  intros Heq. pose proof (eq_trans (eq_sym H) Heq) as Hc.
  vm_compute in Hc. discriminate Hc.
Defined.

(* ================================================================= *)
(** ** Worlds and the log *)

Section WorldFacts.

Context {E : Externals}.

Lemma extend_nothing (w : world) : extend w (board w) [] [] [] = w.
Proof. destruct w; unfold extend; simpl; now rewrite !app_nil_r. Qed.

Lemma extend_extend (w : world) (b1 b2 : dev) (o1 o2 e1 e2 : list string)
    (c1 c2 : list call) :
  extend (extend w b1 o1 e1 c1) b2 o2 e2 c2
  = extend w b2 (o1 ++ o2) (e1 ++ e2) (c1 ++ c2).
Proof. unfold extend; simpl; now rewrite !app_assoc. Qed.

End WorldFacts.

(* ================================================================= *)
(** ** [rm] *)

Section RmFacts.

Context {E : Externals}.

Lemma rm_step_deleted (t : string) (later : list string) (verbose force : bool)
    (w : world) (b' : dev) :
  files_rm t (board w) = (b', Ok tt) ->
  rm (t :: later) verbose force w
  = rm later verbose force
      (extend w b' (if verbose then [rm_echo force t] else []) [] [CallRm t]).
Proof.
  intros H; unfold rm; cbn [for_each]; unfold bind at 1.
  replace (rm_one verbose force t w)
    with (extend w b' (if verbose then [rm_echo force t] else []) []
            [CallRm t], Ok tt); [reflexivity|].
  unfold rm_one, bind, when, try_except, on_board, print, ret, extend.
  destruct verbose; cbn [board host stdout stderr calls]; rewrite H;
    rewrite ?app_nil_r; reflexivity.
Qed.

Lemma rm_step_forced (t : string) (later : list string) (verbose : bool)
    (w : world) (b' : dev) (msg : string) :
  files_rm t (board w) = (b', Raise (RuntimeError msg)) ->
  rm (t :: later) verbose true w
  = rm later verbose true
      (extend w b' (if verbose then [rm_echo true t] else [])
         (if verbose then [rm_warning t] else []) [CallRm t]).
Proof.
  intros H; unfold rm; cbn [for_each]; unfold bind at 1.
  replace (rm_one verbose true t w)
    with (extend w b' (if verbose then [rm_echo true t] else [])
            (if verbose then [rm_warning t] else []) [CallRm t], Ok tt);
    [reflexivity|].
  unfold rm_one, bind, when, try_except, on_board, print, eprint, ret, extend.
  destruct verbose; cbn [board host stdout stderr calls]; rewrite H;
    cbn [is_RuntimeError negb board host stdout stderr calls];
    rewrite ?app_nil_r; reflexivity.
Qed.

Lemma rm_step_raised (t : string) (later : list string) (verbose : bool)
    (w : world) (b' : dev) (e : exn) :
  files_rm t (board w) = (b', Raise e) ->
  rm (t :: later) verbose false w
  = (extend w b' (if verbose then [rm_echo false t] else []) [] [CallRm t],
     Raise e).
Proof.
  intros H; unfold rm; cbn [for_each]; unfold bind at 1.
  replace (rm_one verbose false t w)
    with (extend w b' (if verbose then [rm_echo false t] else []) []
            [CallRm t], @Raise unit e); [reflexivity|].
  unfold rm_one, bind, when, try_except, on_board, print, raise, ret, extend.
  destruct verbose; cbn [board host stdout stderr calls]; rewrite H;
    rewrite ?app_nil_r; destruct e; reflexivity.
Qed.

Lemma rm_force_all (targets : list string) (verbose : bool) (w : world) :
  (forall p b b' e, files_rm p b = (b', Raise e) -> is_RuntimeError e = true) ->
  rm targets verbose true w
  = (extend w (fst (delete_all targets (board w)))
       (if verbose then map (rm_echo true) targets else [])
       (if verbose then map rm_warning (snd (delete_all targets (board w)))
        else [])
       (map CallRm targets),
     Ok tt).
Proof.
  intros Hrt; revert w.
  induction targets as [|t rest IH]; intros w.
  - simpl. destruct verbose; now rewrite extend_nothing.
  - simpl delete_all.
    destruct (files_rm t (board w)) as [b1 r] eqn:Hrm.
    destruct r as [[]|e].
    + rewrite (rm_step_deleted _ _ _ _ _ _ Hrm), IH.
      rewrite extend_extend. cbn [board extend].
      destruct (delete_all rest b1) as [b2 failed].
      destruct verbose; reflexivity.
    + pose proof (Hrt _ _ _ _ Hrm) as He.
      destruct e; try discriminate.
      rewrite (rm_step_forced _ _ _ _ _ _ Hrm), IH.
      rewrite extend_extend. cbn [board extend].
      destruct (delete_all rest b1) as [b2 failed].
      destruct verbose; reflexivity.
Qed.

Lemma rm_first_failure (done later : list string) (t : string)
    (verbose : bool) (w : world) (b1 b2 : dev) (e : exn) :
  delete_all done (board w) = (b1, []) ->
  files_rm t b1 = (b2, Raise e) ->
  rm (done ++ t :: later) verbose false w
  = (extend w b2 (if verbose then map (rm_echo false) (done ++ [t]) else [])
       [] (map CallRm (done ++ [t])),
     Raise e).
Proof.
  revert w; induction done as [|d done IH]; intros w Hdone Hrm.
  - simpl in Hdone; inversion Hdone; subst b1.
    simpl. rewrite (rm_step_raised _ _ _ _ _ _ Hrm).
    destruct verbose; reflexivity.
  - simpl in Hdone.
    destruct (files_rm d (board w)) as [bd r] eqn:Hd.
    destruct (delete_all done bd) as [bx failed] eqn:Hall.
    destruct r as [[]|e']; [|discriminate].
    inversion Hdone; subst bx failed.
    change ((d :: done) ++ t :: later) with (d :: (done ++ t :: later)).
    rewrite (rm_step_deleted _ _ _ _ _ _ Hd).
    rewrite (IH (extend w bd (if verbose then [rm_echo false d] else []) []
                   [CallRm d]) Hall Hrm), extend_extend.
    destruct verbose; reflexivity.
Qed.

(** C5: under [--force], when the remote deletion only fails with the
    remote-operation failure (a [RuntimeError]), every target is processed
    in order whatever the earlier ones answered, a warning is printed for
    each failed target exactly when [--verbose] is set, and the command
    returns normally; without [--force] the first failure is raised, and
    no later target is processed. *)
Theorem rm_force_continues :
  (forall (targets : list string) (verbose : bool) (w : world),
      (forall p b b' e,
          files_rm p b = (b', Raise e) -> is_RuntimeError e = true) ->
      rm targets verbose true w
      = (extend w (fst (delete_all targets (board w)))
           (if verbose then map (rm_echo true) targets else [])
           (if verbose
            then map rm_warning (snd (delete_all targets (board w)))
            else [])
           (map CallRm targets),
         Ok tt))
  /\ (forall (done later : list string) (t : string) (verbose : bool)
        (w : world) (b1 b2 : dev) (e : exn),
      delete_all done (board w) = (b1, []) ->
      files_rm t b1 = (b2, Raise e) ->
      rm (done ++ t :: later) verbose false w
      = (extend w b2
           (if verbose then map (rm_echo false) (done ++ [t]) else [])
           [] (map CallRm (done ++ [t])),
         Raise e)).
Proof.
  split.
  - intros; now apply rm_force_all.
  - intros; now apply rm_first_failure with (b1 := b1).
Qed.

(** C9: under [--force] a [RuntimeError] of the remote deletion is
    suppressed whatever its message, so also the one for a directory that
    is not empty: the target is skipped, the warning (printed only under
    [--verbose]) says that it does not exist, and the command goes on with
    the targets that follow; with none left it returns normally. *)
Theorem rm_force_any_runtime_error (t : string) (later : list string)
    (verbose : bool) (w : world) (b' : dev) (msg : string) :
  files_rm t (board w) = (b', Raise (RuntimeError msg)) ->
  let w1 := extend w b' (if verbose then [rm_echo true t] else [])
              (if verbose then [rm_warning t] else []) [CallRm t] in
  rm (t :: later) verbose true w = rm later verbose true w1
  /\ rm [t] verbose true w = (w1, Ok tt).
Proof.
  intros H w1; split.
  - now apply rm_step_forced with (msg := msg).
  - now rewrite (rm_step_forced _ _ _ _ _ _ H).
Qed.

End RmFacts.

Lemma sample_rm_runtime (p : string) (b b' : Sample.tree) (e : exn) :
  Sample.sample_rm p b = (b', Raise e) -> is_RuntimeError e = true.
Proof.
  unfold Sample.sample_rm.
  destruct (Sample.lookup p b); [destruct (Sample.has_children p b)|];
    intros H; inversion H; reflexivity.
Qed.

Lemma rm_force_continues_witness :
  let remote := [("/a.py", Some "1"); ("/b.py", Some "2")] in
  rm (E := Sample.sample_env) ["/a.py"; "/nope"; "/b.py"] true true
     (Sample.world0 remote [])
  = (Sample.make_world [] []
       [rm_echo true "/a.py"; rm_echo true "/nope"; rm_echo true "/b.py"]
       [rm_warning "/nope"]
       [CallRm "/a.py"; CallRm "/nope"; CallRm "/b.py"], Ok tt)
  /\ rm (E := Sample.sample_env) ["/a.py"; "/nope"; "/b.py"] true false
       (Sample.world0 remote [])
  = (Sample.make_world [("/b.py", Some "2")] []
       [rm_echo false "/a.py"; rm_echo false "/nope"] []
       [CallRm "/a.py"; CallRm "/nope"],
     Raise (RuntimeError "No such file/directory: /nope")).
Proof.
  intros remote.
  destruct (rm_force_continues (E := Sample.sample_env)) as [Hforce Hplain].
  split.
  - exact (Hforce (["/a.py"; "/nope"; "/b.py"] : list string) true
             (Sample.world0 remote []) sample_rm_runtime).
  - exact (Hplain (["/a.py"] : list string) (["/b.py"] : list string) "/nope"
             true (Sample.world0 remote []) _ _ _ eq_refl eq_refl).
Defined.

Lemma rm_force_any_runtime_error_witness :
  let remote := [("/lib", None); ("/lib/x.py", Some "2")] in
  rm (E := Sample.sample_env) ["/lib"] false true (Sample.world0 remote [])
  = (Sample.make_world remote [] [] [] [CallRm "/lib"], Ok tt).
Proof.
  intros remote.
  exact (proj2 (rm_force_any_runtime_error (E := Sample.sample_env)
                  "/lib" [] false (Sample.world0 remote []) remote
                  "Directory is not empty: /lib" eq_refl)).
Defined.

(* ================================================================= *)
(** ** [run] and [reset] *)

Section RunResetFacts.

Context {E : Externals}.

(** C10: when the read of the local input file raises an I/O error
    inside [run], the command writes the message
    [Failed to find or read input file: <local_file>] to the error stream
    and returns normally; nothing is raised. *)
Theorem run_unreadable_input (local_file : string) (no_output : bool)
    (w : world) (b' : dev) (msg : string) :
  files_run local_file (negb no_output) (negb no_output) (host w) (board w)
    = (b', Raise (IOError msg)) ->
  run local_file no_output w
  = (extend w b' []
       [("Failed to find or read input file: " ++ local_file) ++ LF]%string
       [CallRun local_file (negb no_output) (negb no_output)],
     Ok tt).
Proof.
  intros H.
  unfold run, try_except, bind, on_board, eprint, extend.
  rewrite H; cbn [is_IOError board host stdout stderr calls].
  now rewrite app_nil_r.
Qed.

(** C6: for a reset other than the soft one, when the helper on the
    board answers the empty string, the reset itself is sent with the
    call that does not follow the execution, and whether that call
    returns or raises a [SerialException], the command returns
    normally, with nothing on the error stream. *)
Theorem reset_ignores_disconnect (mode : reset_mode) (w : world)
    (b1 b2 b3 b4 : dev) (out : string) (r : result unit) :
  mode <> SOFT ->
  pyboard_enter_raw_repl (board w) = (b1, Ok tt) ->
  pyboard_exec_ reset_helper_code b1 = (b2, Ok out) ->
  pyboard_eval (reset_request mode) b2 = (b3, Ok EmptyString) ->
  pyboard_exec_raw_no_follow "reset()" b3 = (b4, r) ->
  (r = Ok tt \/ exists msg, r = Raise (SerialException msg)) ->
  reset mode w
  = (extend w b4 [("here we are " ++ repr_bytes EmptyString) ++ LF]%string []
       [CallEnterRawRepl; CallExec reset_helper_code;
        CallEval (reset_request mode); CallExecRawNoFollow "reset()"],
     Ok tt).
Proof.
  intros Hmode H1 H2 H3 H4 Hr.
  assert (Hgo :
    (on_board CallEnterRawRepl pyboard_enter_raw_repl ;;
     on_board (CallExec reset_helper_code) (pyboard_exec_ reset_helper_code) ;;
     r0 <- on_board (CallEval (reset_request mode))
             (pyboard_eval (reset_request mode)) ;;
     print ("here we are " ++ repr_bytes r0)%string ;;
     if truthy r0 then eprint r0
     else
       try_except
         (on_board (CallExecRawNoFollow "reset()")
            (pyboard_exec_raw_no_follow "reset()"))
         (fun e => if is_SerialException e then ret tt else raise e))%cmd w
    = (extend w b4
         [("here we are " ++ repr_bytes EmptyString) ++ LF]%string []
         [CallEnterRawRepl; CallExec reset_helper_code;
          CallEval (reset_request mode); CallExecRawNoFollow "reset()"],
       Ok tt)).
  { unfold bind, on_board, print, try_except, ret, extend.
    rewrite H1; cbn [board host stdout stderr calls].
    rewrite H2; cbn [board host stdout stderr calls].
    rewrite H3; cbn [truthy board host stdout stderr calls].
    rewrite H4; cbn [board host stdout stderr calls].
    rewrite app_nil_r, <- !app_assoc; cbn [app].
    destruct Hr as [-> | [msg ->]]; reflexivity. }
  destruct mode; try exact Hgo. now contradiction Hmode.
Qed.

End RunResetFacts.

Lemma run_unreadable_input_witness :
  run (E := Sample.sample_env) "test.py" false (Sample.world0 [] [])
  = (Sample.make_world [] [] []
       ["Failed to find or read input file: test.py" ++ LF]%string
       [CallRun "test.py" true true], Ok tt).
Proof.
  exact (run_unreadable_input (E := Sample.sample_env) "test.py" false
           (Sample.world0 [] []) _ _ eq_refl).
Defined.

Lemma reset_ignores_disconnect_witness :
  reset (E := Sample.sample_env) NORMAL (Sample.world0 [] [])
  = (Sample.make_world [] [] ["here we are b''" ++ LF]%string []
       [CallEnterRawRepl; CallExec reset_helper_code;
        CallEval "on_next_reset('NORMAL')"; CallExecRawNoFollow "reset()"],
     Ok tt).
Proof.
  apply (reset_ignores_disconnect (E := Sample.sample_env) NORMAL
           (Sample.world0 [] []) [] [] [] [] EmptyString
           (Raise (SerialException "device disconnected")));
    try reflexivity.
  - discriminate.
  - right; exists "device disconnected"; reflexivity.
Defined.

(* ================================================================= *)
(** ** [mkdir] *)

Section MkdirFacts.

Context {E : Externals}.

Lemma split_no_slash (s : string) :
  no_slash s -> split "/" s = [s].
Proof.
  unfold no_slash, has_char.
  induction s as [|c s IH]; cbn [split existsb list_ascii_of_string];
    intros H; [reflexivity|].
  apply orb_false_iff in H as [Hc Hs].
  rewrite Ascii.eqb_sym, Hc, (IH Hs). reflexivity.
Qed.

Lemma split_segment (p s : string) :
  no_slash p -> split "/" (p ++ String "/" s) = p :: split "/" s.
Proof.
  unfold no_slash, has_char.
  induction p as [|c p IH]; cbn [split existsb list_ascii_of_string append];
    intros H; [reflexivity|].
  apply orb_false_iff in H as [Hc Hs].
  rewrite Ascii.eqb_sym, Hc, (IH Hs). reflexivity.
Qed.

Lemma split_join (segments : list string) :
  segments <> [] -> Forall no_slash segments ->
  split "/" (join "/" segments) = segments.
Proof.
  induction segments as [|p rest IH]; intros Hne Hall; [contradiction|].
  inversion Hall as [|? ? Hp Hrest]; subst.
  destruct rest as [|q rest].
  - simpl. now apply split_no_slash.
  - change (join "/" (p :: q :: rest))
      with (p ++ "/" ++ join "/" (q :: rest))%string.
    change ("/" ++ join "/" (q :: rest))%string
      with (String "/" (join "/" (q :: rest))).
    rewrite (split_segment _ _ Hp), IH; [reflexivity | discriminate | assumption].
Qed.

Lemma prefixes_not_nil {A : Type} (l pre : list A) :
  In pre (prefixes l) -> pre <> [].
Proof.
  destruct l as [|x r]; simpl; [contradiction|].
  intros [<- | H]; [discriminate|].
  apply in_map_iff in H as (y & <- & _). discriminate.
Qed.

Lemma join_cons (d : string) (pre : list string) :
  pre <> [] -> join "/" (d :: pre) = (d ++ "/" ++ join "/" pre)%string.
Proof. destruct pre; [contradiction | reflexivity]. Qed.

(** The loop of [mkdir] asks for the prefixes of its list, shortest
    first, each under the path built so far. *)
Lemma mkdir_parents_prefixes (dirs : list string) (dirpath : string) (w : world) :
  mkdir_parents dirpath dirs w
  = for_each
      (map (fun pre => dirpath ++ "/" ++ join "/" pre)%string (prefixes dirs))
      (create true) w.
Proof.
  revert dirpath w; induction dirs as [|d rest IH]; intros dirpath w;
    [reflexivity|].
  cbn [mkdir_parents prefixes map for_each join].
  unfold bind, create at 1.
  destruct (on_board (CallMkdir (dirpath ++ "/" ++ d) true)
              (files_mkdir (dirpath ++ "/" ++ d) true) w) as [w1 [[]|e]];
    [|reflexivity].
  rewrite IH, map_map. f_equal.
  apply map_ext_in; intros pre Hin.
  rewrite (join_cons d pre (prefixes_not_nil _ _ Hin)).
  now rewrite !append_assoc.
Qed.

Lemma mkdir_absolute (rest : string) (exists_okay : bool) (w : world) :
  mkdir (String "/" rest) exists_okay true w
  = (mkdir_parents EmptyString (removelast (split "/" rest)) ;;
     create exists_okay (String "/" rest))%cmd w.
Proof.
  unfold mkdir, bind, ret, create.
  change (negb (Ascii.eqb "/" "/")) with false; cbv iota.
  change (slice_1_m1 (split "/" (String "/" rest)))
    with (removelast (split "/" rest)).
  destruct (mkdir_parents EmptyString (removelast (split "/" rest)) w)
    as [w' [a|e]]; reflexivity.
Qed.

Lemma mkdir_relative (c : ascii) (rest : string) (exists_okay : bool)
    (w : world) :
  c <> "/"%char ->
  mkdir (String c rest) exists_okay true w
  = mkdir (String "/" (String c rest)) exists_okay true w.
Proof.
  intros Hc. apply Ascii.eqb_neq in Hc.
  unfold mkdir, bind, ret. rewrite Hc. reflexivity.
Qed.

(** C4: with [--make-parents], for a target spelled by its segments,
    from the root or relative to it, the ancestors are requested first,
    from the root down and each with exists-okay set, and then the target
    with the setting the user chose; a request that raises ends the
    command with that exception.  Without [--make-parents] the only
    request is the one for the target, and the command answers what the
    board answers: it fails when the board refuses for a missing
    ancestor. *)
Theorem mkdir_make_parents (parents : list string) (leaf : string)
    (exists_okay : bool) (w : world) :
  Forall no_slash (parents ++ [leaf]) ->
  let target := remote_path_of (parents ++ [leaf]) in
  let requests :=
    (for_each (ancestors parents) (create true) ;;
     create exists_okay target)%cmd in
  mkdir target exists_okay true w = requests w
  /\ (forall c rest,
        join "/" (parents ++ [leaf]) = String c rest -> c <> "/"%char ->
        mkdir (join "/" (parents ++ [leaf])) exists_okay true w = requests w)
  /\ (forall directory,
        mkdir directory exists_okay false w
        = on_board (CallMkdir directory exists_okay)
            (files_mkdir directory exists_okay) w).
Proof.
  intros Hall target requests.
  assert (Habs : mkdir target exists_okay true w = requests w).
  { unfold target, requests, remote_path_of.
    change ("/" ++ join "/" (parents ++ [leaf]))%string
      with (String "/" (join "/" (parents ++ [leaf]))).
    rewrite mkdir_absolute.
    rewrite split_join; [| now destruct parents | assumption].
    rewrite removelast_last.
    unfold bind. rewrite mkdir_parents_prefixes.
    unfold ancestors, remote_path_of. reflexivity. }
  split; [exact Habs|]. split.
  - intros c rest Hj Hc. rewrite Hj, (mkdir_relative _ _ _ _ Hc).
    rewrite <- Hj. exact Habs.
  - intros directory. reflexivity.
Qed.

End MkdirFacts.

Lemma mkdir_make_parents_witness :
  mkdir (E := Sample.sample_env) "/a/b/c" false true
    (Sample.world0 [("/a", None)] [])
  = (Sample.make_world [("/a", None); ("/a/b", None); ("/a/b/c", None)] []
       [] []
       [CallMkdir "/a" true; CallMkdir "/a/b" true; CallMkdir "/a/b/c" false],
     Ok tt)
  /\ mkdir (E := Sample.sample_env) "a/b/c" false true (Sample.world0 [] [])
  = (Sample.make_world [("/a", None); ("/a/b", None); ("/a/b/c", None)] []
       [] []
       [CallMkdir "/a" true; CallMkdir "/a/b" true; CallMkdir "/a/b/c" false],
     Ok tt)
  /\ mkdir (E := Sample.sample_env) "/a/b/c" false false (Sample.world0 [] [])
  = (Sample.make_world [] [] [] [] [CallMkdir "/a/b/c" false],
     Raise (RuntimeError "Could not create directory: /a/b/c")).
Proof.
  assert (Hseg : Forall no_slash (["a"; "b"] ++ ["c"])%list)
    by (repeat constructor).
  split; [|split].
  - exact (proj1 (mkdir_make_parents (E := Sample.sample_env)
                    ["a"; "b"] "c" false (Sample.world0 [("/a", None)] [])
                    Hseg)).
  - refine (proj1 (proj2 (mkdir_make_parents (E := Sample.sample_env)
                            ["a"; "b"] "c" false (Sample.world0 [] []) Hseg))
              "a"%char "/b/c" eq_refl _).
    discriminate.
  - exact (proj2 (proj2 (mkdir_make_parents (E := Sample.sample_env)
                           ["a"; "b"] "c" false (Sample.world0 [] []) Hseg))
             "/a/b/c").
Defined.

(* ================================================================= *)
(** ** [put]: the copy of one file *)

Section PutFacts.

Context {E : Externals}.

Lemma copy_file_after_load (strip checksum verbose : bool)
    (local_filepath remote_filepath : string) (w w1 : world)
    (contents : string) (old : option string) :
  load_contents strip local_filepath w = (w1, Ok (contents, old)) ->
  copy_file strip checksum verbose local_filepath remote_filepath w
  = (checksum_matches <-
       remote_checksum_matches checksum remote_filepath contents ;;
     when verbose
       (print (copy_message checksum_matches local_filepath remote_filepath
                 contents old)) ;;
     if negb checksum_matches then
       on_board (CallPut remote_filepath contents)
         (files_put remote_filepath contents) ;;
       ret (String.length contents)
     else ret 0)%cmd w1.
Proof. intros H; unfold copy_file; unfold bind at 1; now rewrite H. Qed.

(** C3: under [--checksum], with [contents] the bytes of the local file
    after the optional stripping: when the request for the remote hash
    raises, the file is sent; when it answers, the file is sent unless
    the answer equals the SHA-256 hex digest of [contents], in which case
    nothing is sent and no byte is counted as written. *)
Theorem put_checksum_skip (strip verbose : bool)
    (local_filepath remote_filepath : string) (w w1 : world)
    (contents : string) (old : option string) (b2 : dev)
    (answer : result string) :
  load_contents strip local_filepath w = (w1, Ok (contents, old)) ->
  files_checksum remote_filepath (board w1) = (b2, answer) ->
  let done := copy_file strip true verbose local_filepath remote_filepath w in
  let sent :=
    calls (fst done)
    = calls w1 ++ [CallChecksum remote_filepath;
                   CallPut remote_filepath contents]
    /\ (board (fst done), snd done) = upload remote_filepath contents b2 in
  let skipped :=
    calls (fst done) = calls w1 ++ [CallChecksum remote_filepath]
    /\ board (fst done) = b2 /\ snd done = Ok 0 in
  match answer with
  | Raise _ => sent
  | Ok remotehash =>
      (remotehash = sha256_hexdigest contents -> skipped)
      /\ (remotehash <> sha256_hexdigest contents -> sent)
  end.
Proof.
  intros Hload Hck done sent skipped.
  assert (Hsent :
    ((exists e, answer = Raise e)
     \/ (exists h, answer = Ok h
                   /\ String.eqb h (sha256_hexdigest contents) = false))
    -> sent).
  { intros Hcase. unfold sent, done.
    rewrite (copy_file_after_load _ _ _ _ _ _ _ _ _ Hload).
    unfold remote_checksum_matches, try_except, bind, on_board, when, print,
      ret, upload.
    rewrite Hck.
    destruct Hcase as [[e ->] | (h & -> & Hne)]; [|rewrite Hne];
      destruct verbose; cbn [negb board host stdout stderr calls fst snd];
      destruct (files_put remote_filepath contents b2) as [b3 [[]|e']];
      cbn [fst snd board calls]; rewrite <- app_assoc; split; reflexivity. }
  destruct answer as [h|e].
  - split.
    + intros ->. unfold skipped, done.
      rewrite (copy_file_after_load _ _ _ _ _ _ _ _ _ Hload).
      unfold remote_checksum_matches, try_except, bind, on_board, when, print,
        ret.
      rewrite Hck, String.eqb_refl.
      destruct verbose; cbn [negb board host stdout stderr calls fst snd];
        repeat split; reflexivity.
    + intros Hne. apply Hsent. right; exists h; split; [reflexivity|].
      now apply String.eqb_neq.
  - apply Hsent. left; now exists e.
Qed.

End PutFacts.

Lemma put_checksum_skip_witness :
  let same := Sample.world0 [("/main.py", Some "abc")] [("main.py", Some "abc")] in
  let other := Sample.world0 [("/main.py", Some "abd")] [("main.py", Some "abc")] in
  let fresh := Sample.world0 [] [("main.py", Some "abc")] in
  (calls (fst (copy_file (E := Sample.sample_env) false true false
                 "main.py" "/main.py" same))
   = [CallChecksum "/main.py"]
   /\ snd (copy_file (E := Sample.sample_env) false true false
             "main.py" "/main.py" same) = Ok 0)
  /\ calls (fst (copy_file (E := Sample.sample_env) false true false
                   "main.py" "/main.py" other))
     = [CallChecksum "/main.py"; CallPut "/main.py" "abc"]
  /\ calls (fst (copy_file (E := Sample.sample_env) false true false
                   "main.py" "/main.py" fresh))
     = [CallChecksum "/main.py"; CallPut "/main.py" "abc"].
Proof.
  intros same other fresh.
  pose proof (put_checksum_skip (E := Sample.sample_env) false false
                "main.py" "/main.py" same same "abc" None _ _
                eq_refl eq_refl) as Hsame.
  pose proof (put_checksum_skip (E := Sample.sample_env) false false
                "main.py" "/main.py" other other "abc" None _ _
                eq_refl eq_refl) as Hother.
  pose proof (put_checksum_skip (E := Sample.sample_env) false false
                "main.py" "/main.py" fresh fresh "abc" None _ _
                eq_refl eq_refl) as Hfresh.
  split; [|split].
  - destruct (proj1 Hsame eq_refl) as (Hcalls & _ & Hres).
    split; assumption.
  - apply (proj2 Hother). discriminate.
  - apply Hfresh.
Defined.

(* ================================================================= *)
(** ** [get] *)

Section GetFacts.

Context {E : Externals}.

Lemma grows_ret {A : Type} (a : A) : grows (ret a).
Proof. intros w; exists []; simpl; now rewrite app_nil_r. Qed.

Lemma grows_raise {A : Type} (e : exn) : grows (@raise _ A e).
Proof. intros w; exists []; simpl; now rewrite app_nil_r. Qed.

Lemma grows_lift {A : Type} (r : result A) : grows (lift r).
Proof. intros w; exists []; simpl; now rewrite app_nil_r. Qed.

Lemma grows_print (text : string) : grows (print text).
Proof. intros w; exists []; simpl; now rewrite app_nil_r. Qed.

Lemma grows_ask_host {A : Type} (q : hst -> A) : grows (ask_host q).
Proof. intros w; exists []; simpl; now rewrite app_nil_r. Qed.

Lemma grows_on_host {A : Type} (op : hst -> hst * result A) : grows (on_host op).
Proof.
  intros w; exists []; unfold on_host.
  destruct (op (host w)); simpl; now rewrite app_nil_r.
Qed.

Lemma grows_on_board {A : Type} (c : call) (op : dev -> dev * result A) :
  grows (on_board c op).
Proof.
  intros w; exists [c]; unfold on_board.
  destruct (op (board w)); reflexivity.
Qed.

Lemma grows_bind {A B : Type} (m : M A) (k : A -> M B) :
  grows m -> (forall a, grows (k a)) -> grows (bind m k).
Proof.
  intros Hm Hk w; unfold bind.
  destruct (Hm w) as [l1 H1].
  destruct (m w) as [w1 [a|e]]; simpl in H1.
  - destruct (Hk a w1) as [l2 H2].
    exists (l1 ++ l2). now rewrite H2, H1, app_assoc.
  - now exists l1.
Qed.

Lemma grows_when (b : bool) (m : M unit) : grows m -> grows (when b m).
Proof. destruct b; simpl; [auto | intros _; apply grows_ret]. Qed.

Lemma grows_for_each {A : Type} (xs : list A) (body : A -> M unit) :
  (forall x, grows (body x)) -> grows (for_each xs body).
Proof.
  intros Hb; induction xs as [|x xs IH]; simpl.
  - apply grows_ret.
  - apply grows_bind; auto.
Qed.

Ltac grows_step :=
  first
    [ apply grows_ret | apply grows_raise | apply grows_lift
    | apply grows_print | apply grows_ask_host | apply grows_on_host
    | apply grows_on_board
    | apply grows_when
    | apply grows_for_each; intros
    | apply grows_bind; [|intros]
    | match goal with
      | |- grows (if ?b then _ else _) => destruct b
      | |- grows (match ?x with _ => _ end) => destruct x
      end ].

Lemma grows_get_file (verbose : bool) (remote_file : string)
    (destination : option lpath) :
  grows (get_file verbose remote_file destination).
Proof. unfold get_file; repeat grows_step. Qed.

Lemma grows_get_subpath (verbose : bool) (remote_path dir : lpath) (x : string) :
  grows (get_subpath verbose remote_path dir x).
Proof.
  unfold get_subpath; repeat (apply grows_get_file || grows_step).
Qed.

(** Each remote file is first put to the board for its canonical path. *)
Lemma get_one_calls (verbose : bool) (local_path : option lpath)
    (remote_file : string) (w : world) :
  exists l,
    calls (fst (get_one verbose local_path remote_file w))
    = calls w ++ CallCanonicalize remote_file :: l.
Proof.
  unfold get_one. unfold bind at 1. unfold on_board at 1.
  destruct (files_canonicalize_remote_path remote_file (board w))
    as [b1 [canonical|e]].
  - match goal with
    | |- exists l, calls (fst (?k ?w1)) = _ =>
        assert (Hk : grows k)
    end.
    { repeat (apply grows_get_file || apply grows_get_subpath || grows_step). }
    destruct (Hk {| board := b1; host := host w; stdout := stdout w;
                    stderr := stderr w;
                    calls := calls w ++ [CallCanonicalize remote_file] |})
      as [l Hl].
    exists l. rewrite Hl; simpl. now rewrite <- app_assoc.
  - now exists [].
Qed.

Lemma get_loop_calls (verbose : bool) (local_path : option lpath)
    (remote_file : string) (rest : list string) (w : world) :
  calls (fst (for_each (remote_file :: rest) (get_one verbose local_path) w))
  <> calls w.
Proof.
  cbn [for_each]; unfold bind.
  destruct (get_one_calls verbose local_path remote_file w) as [l Hl].
  destruct (get_one verbose local_path remote_file w) as [w1 [[]|e]];
    simpl in Hl.
  - assert (Hrest : grows (for_each rest (get_one verbose local_path))).
    { apply grows_for_each; intros x w0.
      destruct (get_one_calls verbose local_path x w0) as [l0 H0]; eauto. }
    destruct (Hrest w1) as [l2 H2].
    rewrite H2, Hl, <- app_assoc. simpl.
    intros Heq. rewrite <- (app_nil_r (calls w)) in Heq at 2.
    apply app_inv_head in Heq. discriminate.
  - simpl. rewrite Hl.
    intros Heq. rewrite <- (app_nil_r (calls w)) in Heq at 2.
    apply app_inv_head in Heq. discriminate.
Qed.

(** C7: [get] raises a usage error with no call put to the board
    exactly when no remote file is given at all, and when more than one
    remote file is given and the local path is not an existing directory;
    in both cases the world is left as it was. *)
Theorem get_usage_errors (remote_files : list string)
    (local_path : option lpath) (verbose : bool) (w : world) :
  let done := get remote_files local_path verbose w in
  (((exists msg, snd done = Raise (UsageError msg))
    /\ calls (fst done) = calls w)
   <-> get_misused remote_files local_path (host w))
  /\ (get_misused remote_files local_path (host w) ->
      fst done = w /\ exists msg, snd done = Raise (UsageError msg)).
Proof.
  unfold get_misused.
  destruct remote_files as [|r1 [|r2 rest]].
  - destruct local_path as [p|].
    + (* the single argument is the remote file *)
      pose proof (get_loop_calls verbose None (path_str p) [] w) as Hloop.
      change (get [] (Some p) verbose w)
        with (for_each [path_str p] (get_one verbose None) w).
      cbv zeta. split.
      * split.
        -- intros [_ Hc]; contradiction.
        -- intros [[_ Hn] | [Hlen _]]; [discriminate | inversion Hlen].
      * intros [[_ Hn] | [Hlen _]]; [discriminate | inversion Hlen].
    + cbv zeta. change (get [] None verbose w)
        with (w, @Raise unit (UsageError "Must specify at least one remote file")).
      split; [split|]; intros _; simpl; eauto.
  - pose proof (get_loop_calls verbose local_path r1 [] w) as Hloop.
    change (get [r1] local_path verbose w)
      with (for_each [r1] (get_one verbose local_path) w).
    cbv zeta. split.
    + split.
      * intros [_ Hc]; contradiction.
      * intros [[Hn _] | [Hlen _]]; [discriminate|].
        simpl in Hlen. inversion Hlen as [|? Hle]; inversion Hle.
    + intros [[Hn _] | [Hlen _]]; [discriminate|].
      simpl in Hlen. inversion Hlen as [|? Hle]; inversion Hle.
  - destruct local_path as [p|].
    + destruct (path_is_dir p (host w)) eqn:Hdir.
      * pose proof (get_loop_calls verbose (Some p) r1 (r2 :: rest) w) as Hloop.
        assert (Hget : get (r1 :: r2 :: rest) (Some p) verbose w
                       = for_each (r1 :: r2 :: rest)
                           (get_one verbose (Some p)) w).
        { unfold get. cbn [List.length Nat.eqb Nat.ltb Nat.leb].
          unfold bind at 1. unfold ret at 1. unfold bind at 1.
          unfold bind at 1. unfold ask_host. rewrite Hdir. reflexivity. }
        cbv zeta. rewrite Hget. split.
        -- split.
           ++ intros [_ Hc]; contradiction.
           ++ intros [[Hn _] | (_ & q & Hq & Hd)]; [discriminate|].
              inversion Hq; subst q. congruence.
        -- intros [[Hn _] | (_ & q & Hq & Hd)]; [discriminate|].
           inversion Hq; subst q. congruence.
      * assert (Hget : exists msg,
                  get (r1 :: r2 :: rest) (Some p) verbose w
                  = (w, Raise (UsageError msg))).
        { eexists. unfold get. cbn [List.length Nat.eqb Nat.ltb Nat.leb].
          unfold bind at 1. unfold ret at 1. unfold bind at 1.
          unfold bind at 1. unfold ask_host. rewrite Hdir. reflexivity. }
        destruct Hget as [msg Hget]. cbv zeta. rewrite Hget. simpl.
        assert (Hmis : 1 < S (S (List.length rest))
                       /\ exists q, Some p = Some q
                                    /\ path_is_dir q (host w) = false).
        { split; [lia | exists p; auto]. }
        split; [split|]; intros _; eauto.
    + change (get (r1 :: r2 :: rest) None verbose w)
        with (w, @Raise unit AttributeError).
      cbv zeta. simpl. split.
      * split.
        -- intros [[msg Hm] _]; discriminate.
        -- intros [[Hn _] | (_ & q & Hq & _)]; discriminate.
      * intros [[Hn _] | (_ & q & Hq & _)]; discriminate.
Qed.

End GetFacts.

(* ================================================================= *)
(** ** More on port names *)

Section PortFacts.

Lemma append_length (a b : string) :
  String.length (a ++ b) = String.length a + String.length b.
Proof. induction a as [|c a IH]; simpl; [reflexivity | now rewrite IH]. Qed.

Lemma prefixed_differs (port : string) : (device_prefix ++ port)%string <> port.
Proof.
  intros H. apply (f_equal String.length) in H.
  rewrite append_length in H. simpl in H. lia.
Qed.

Lemma span_digits_then (ds tl : string) :
  all_digits ds = true -> span_digits tl = (EmptyString, tl) ->
  span_digits (ds ++ tl) = (ds, tl).
Proof.
  intros Hd Ht; induction ds as [|c ds IH]; simpl; [exact Ht|].
  simpl in Hd. apply andb_true_iff in Hd as [Hc Hd].
  now rewrite Hc, (IH Hd).
Qed.

Lemma match_COM_newline (ds : string) :
  all_digits ds = true -> ds <> EmptyString ->
  match_COM ("COM" ++ ds ++ LF) = Some ds.
Proof.
  intros Hd Hne; unfold match_COM; simpl.
  rewrite (span_digits_then ds LF Hd eq_refl).
  destruct ds; [contradiction|reflexivity].
Qed.

Lemma low_com_match (port : string) :
  low_com port <->
  exists ds, match_COM port = Some ds /\ (int_of_digits ds <? 10)%N = true.
Proof.
  split.
  - intros (ds & Hd & Hne & Hlt & [-> | ->]); exists ds;
      (split; [| now apply N.ltb_lt]).
    + now apply match_COM_digits.
    + now apply match_COM_newline.
  - intros (ds & Hm & Hlt).
    destruct (match_COM_inv _ _ Hm) as (Hd & Hne & Hs).
    exists ds. repeat split; auto. now apply N.ltb_lt.
Qed.

(** The rewrite returns its argument exactly for [COM<N>] with [N < 10],
    where the name may end in one newline and the number may have leading
    zeros; every other name comes back changed. *)
Theorem windows_full_port_name_fixed (port : string) :
  windows_full_port_name port = port <-> low_com port.
Proof.
  rewrite low_com_match. unfold windows_full_port_name.
  destruct (match_COM port) as [ds|].
  - destruct (int_of_digits ds <? 10)%N eqn:Hlt.
    + split; [intros _; now exists ds | reflexivity].
    + split.
      * intros H; now destruct (prefixed_differs port).
      * intros (ds' & Hs & Hlt'). inversion Hs; subst. congruence.
  - split.
    + intros H; now destruct (prefixed_differs port).
    + intros (ds' & Hs & _); discriminate.
Qed.

(** A name that already carries the device prefix gets it a second time,
    so the rewrite is idempotent only on the names it leaves alone. *)
Theorem windows_full_port_name_twice (port : string) :
  windows_full_port_name (device_prefix ++ port)
  = (device_prefix ++ device_prefix ++ port)%string
  /\ (windows_full_port_name (windows_full_port_name port)
      = windows_full_port_name port <-> low_com port).
Proof.
  assert (Hpre : forall p, windows_full_port_name (device_prefix ++ p)
                           = (device_prefix ++ device_prefix ++ p)%string)
    by reflexivity.
  split; [apply Hpre|].
  rewrite low_com_match. unfold windows_full_port_name at 2 3.
  destruct (match_COM port) as [ds|] eqn:Hm.
  - destruct (int_of_digits ds <? 10)%N eqn:Hlt.
    + unfold windows_full_port_name; rewrite Hm, Hlt.
      split; [intros _; now exists ds | reflexivity].
    + rewrite Hpre. split.
      * intros H; now destruct (prefixed_differs (device_prefix ++ port)).
      * intros (ds' & Hs & Hlt'). inversion Hs; subst. congruence.
  - rewrite Hpre. split.
    + intros H; now destruct (prefixed_differs (device_prefix ++ port)).
    + intros (ds' & Hs & _); discriminate.
Qed.

End PortFacts.

(* ================================================================= *)
(** ** More on [rm] *)

Section RmMoreFacts.

Context {E : Externals}.

Lemma rm_unfold (t : string) (later : list string) (verbose force : bool)
    (w : world) :
  rm (t :: later) verbose force w
  = match rm_one verbose force t w with
    | (w1, Ok _) => rm later verbose force w1
    | (w1, Raise e) => (w1, Raise e)
    end.
Proof. reflexivity. Qed.

Lemma rm_one_other (t : string) (verbose force : bool) (w : world)
    (b' : dev) (e : exn) :
  files_rm t (board w) = (b', Raise e) -> is_RuntimeError e = false ->
  rm_one verbose force t w
  = (extend w b' (if verbose then [rm_echo force t] else []) [] [CallRm t],
     Raise e).
Proof.
  intros H He.
  unfold rm_one, bind, when, try_except, on_board, print, raise, ret, extend.
  destruct verbose; cbn [board host stdout stderr calls]; rewrite H, He;
    rewrite ?app_nil_r; reflexivity.
Qed.

(** What one target adds to the world: always the call, the echo under
    [--verbose], and on the error stream nothing unless [--verbose]. *)
Lemma rm_one_shape (t : string) (verbose force : bool) (w : world) :
  exists b' err r,
    rm_one verbose force t w
    = (extend w b' (if verbose then [rm_echo force t] else []) err [CallRm t],
       r)
    /\ (verbose = false -> err = []).
Proof.
  unfold rm_one, bind, when, try_except, on_board, print, eprint, raise, ret,
    extend.
  destruct (files_rm t (board w)) as [b' [[]|e]] eqn:H.
  - exists b', [], (Ok tt).
    destruct verbose; cbn [board host stdout stderr calls]; rewrite H;
      rewrite ?app_nil_r; auto.
  - destruct (is_RuntimeError e) eqn:He; destruct force, verbose;
      cbn [negb board host stdout stderr calls]; rewrite H, He;
      cbn [negb board host stdout stderr calls];
      try (exists b', [], (Raise e); rewrite ?app_nil_r; split;
           [reflexivity | auto]; fail);
      try (exists b', [], (Ok tt); rewrite ?app_nil_r; split;
           [reflexivity | auto]; fail).
    exists b', [rm_warning t], (Ok tt). split; [reflexivity | discriminate].
Qed.

(** [--force] only covers the remote-operation failure: an exception of
    the deletion that is not a [RuntimeError], such as a broken serial
    link, ends [rm] at that target with or without [--force], with no
    warning and with the later targets untouched. *)
Theorem rm_force_keeps_other_errors (t : string) (later : list string)
    (verbose force : bool) (w : world) (b' : dev) (e : exn) :
  files_rm t (board w) = (b', Raise e) -> is_RuntimeError e = false ->
  rm (t :: later) verbose force w
  = (extend w b' (if verbose then [rm_echo force t] else []) [] [CallRm t],
     Raise e).
Proof.
  intros H He. rewrite rm_unfold.
  now rewrite (rm_one_other _ _ _ _ _ _ H He).
Qed.

(** Without [--verbose], [rm] writes on neither stream, whatever the
    board answers and with or without [--force]; it never touches the
    host. *)
Theorem rm_quiet (targets : list string) (force : bool) :
  silent (rm targets false force) /\ keeps_host (rm targets false force).
Proof.
  assert (H : forall w,
             let w' := fst (rm targets false force w) in
             stdout w' = stdout w /\ stderr w' = stderr w /\ host w' = host w).
  { induction targets as [|t later IH]; intros w; [simpl; auto|].
    cbv zeta. rewrite rm_unfold.
    destruct (rm_one_shape t false force w) as (b' & err & r & Hone & Herr).
    rewrite Hone, (Herr eq_refl).
    destruct r as [[]|e].
    - destruct (IH (extend w b' [] [] [CallRm t])) as (Ho & He & Hh).
      rewrite Ho, He, Hh. unfold extend; simpl.
      now rewrite !app_nil_r.
    - unfold extend; simpl. now rewrite !app_nil_r. }
  split; intros w; destruct (H w) as (Ho & He & Hh); auto.
Qed.

(** [rm] asks the board to delete targets of its list only, in the order
    of the list and each at most once: the calls it adds are those for a
    prefix of the list. *)
Theorem rm_calls_prefix (targets : list string) (verbose force : bool)
    (w : world) :
  exists k, k <= List.length targets
    /\ calls (fst (rm targets verbose force w))
       = calls w ++ map CallRm (firstn k targets).
Proof.
  revert w; induction targets as [|t later IH]; intros w.
  - exists 0; simpl. now rewrite app_nil_r.
  - rewrite rm_unfold.
    destruct (rm_one_shape t verbose force w) as (b' & err & r & Hone & _).
    rewrite Hone. destruct r as [[]|e].
    + destruct (IH (extend w b' (if verbose then [rm_echo force t] else [])
                      err [CallRm t])) as (k & Hk & Hc).
      exists (S k); split; [simpl; lia|].
      rewrite Hc; simpl. now rewrite <- app_assoc.
    + exists 1; split; [simpl; lia | reflexivity].
Qed.

End RmMoreFacts.

Lemma rm_force_keeps_other_errors_witness :
  let fault := SerialException "port closed" in
  rm (E := Faulty.faulty_env fault Faulty.unsupported) ["/a.py"; "/b.py"] true true
    (Faulty.make_world fault Faulty.unsupported [("/a.py", Some "1")] [] [] [] [])
  = (Faulty.make_world fault Faulty.unsupported [("/a.py", Some "1")] []
       [rm_echo true "/a.py"] [] [CallRm "/a.py"],
     Raise fault).
Proof.
  intros fault.
  exact (rm_force_keeps_other_errors (E := Faulty.faulty_env fault Faulty.unsupported)
           "/a.py" (["/b.py"] : list string) true true
           (Faulty.make_world fault Faulty.unsupported [("/a.py", Some "1")] [] [] [] [])
           _ fault eq_refl eq_refl).
Defined.

(* ================================================================= *)
(** ** More on [mkdir] *)

Section MkdirMoreFacts.

Context {E : Externals}.

Lemma grows_mkdir_parents (dirs : list string) (dirpath : string) :
  grows (mkdir_parents dirpath dirs).
Proof.
  revert dirpath; induction dirs as [|d rest IH]; intros dirpath; simpl.
  - apply grows_ret.
  - apply grows_bind; [apply grows_on_board | intros; apply IH].
Qed.

Lemma not_longer {A : Type} (l : list A) (x : A) (more : list A) :
  l ++ x :: more <> l.
Proof.
  intros H. rewrite <- (app_nil_r l) in H at 2.
  apply app_inv_head in H. discriminate.
Qed.

Lemma mkdir_requests_call (dirs : list string) (dirpath target : string)
    (exists_okay : bool) (w : world) :
  calls (fst ((mkdir_parents dirpath dirs ;; create exists_okay target)%cmd w))
  <> calls w.
Proof.
  destruct dirs as [|d rest].
  - unfold bind, create, on_board; simpl.
    destruct (files_mkdir target exists_okay (board w)); simpl.
    apply not_longer.
  - assert (Hrest : forall a : unit,
              grows (mkdir_parents (dirpath ++ "/" ++ d) rest ;;
                     create exists_okay target)%cmd).
    { intros _. apply grows_bind; [apply grows_mkdir_parents|].
      intros _. apply grows_on_board. }
    cbn [mkdir_parents]. unfold bind at 1 2. unfold on_board at 1.
    destruct (files_mkdir (dirpath ++ "/" ++ d) true (board w)) as [b1 [[]|e]].
    + match goal with
      | |- calls (fst (match ?m ?w1 with _ => _ end)) <> _ =>
          destruct (Hrest tt w1) as [l Hl]; unfold bind in Hl;
          destruct (m w1) as [w2 [[]|e2]]
      end; rewrite Hl; simpl; rewrite <- app_assoc; apply not_longer.
    + simpl. apply not_longer.
Qed.

(** With [--make-parents], [mkdir] raises [IndexError] without a call to
    the board exactly for the empty path: any other path leads to at least
    one request.  Without the option the empty path is handed to the
    board like any other. *)
Theorem mkdir_empty_path (directory : string) (exists_okay : bool) (w : world) :
  (snd (mkdir directory exists_okay true w) = Raise IndexError
   /\ calls (fst (mkdir directory exists_okay true w)) = calls w
   <-> directory = EmptyString)
  /\ mkdir EmptyString exists_okay false w
     = create exists_okay EmptyString w.
Proof.
  split; [|reflexivity].
  destruct directory as [|c rest].
  - split; [reflexivity | intros _; split; reflexivity].
  - split; [|discriminate].
    intros [_ Hcalls]. exfalso. revert Hcalls.
    destruct (Ascii.eqb c "/") eqn:Hc.
    + apply Ascii.eqb_eq in Hc; subst c.
      rewrite mkdir_absolute. apply mkdir_requests_call.
    + apply Ascii.eqb_neq in Hc.
      rewrite (mkdir_relative _ _ _ _ Hc), mkdir_absolute.
      apply mkdir_requests_call.
Qed.

Lemma mkdir_requests (parents : list string) (leaf : string)
    (exists_okay : bool) (w : world) :
  Forall no_slash (parents ++ [leaf]) ->
  mkdir (remote_path_of (parents ++ [leaf])) exists_okay true w
  = (for_each (ancestors parents) (create true) ;;
     create exists_okay (remote_path_of (parents ++ [leaf])))%cmd w.
Proof.
  intros Hall. unfold remote_path_of.
  change ("/" ++ join "/" (parents ++ [leaf]))%string
    with (String "/" (join "/" (parents ++ [leaf]))).
  rewrite mkdir_absolute.
  rewrite split_join; [| now destruct parents | assumption].
  rewrite removelast_last.
  unfold bind. rewrite mkdir_parents_prefixes.
  unfold ancestors, remote_path_of. reflexivity.
Qed.

Lemma for_each_create_calls (paths : list string) (flag : bool) (w w' : world) :
  for_each paths (create flag) w = (w', Ok tt) ->
  calls w' = calls w ++ map (fun p => CallMkdir p flag) paths.
Proof.
  revert w; induction paths as [|p rest IH]; intros w H.
  - inversion H; subst. now rewrite app_nil_r.
  - cbn [for_each] in H. unfold bind, create at 1, on_board at 1 in H.
    destruct (files_mkdir p flag (board w)) as [b1 [[]|e]]; [|discriminate].
    rewrite (IH _ H); simpl. now rewrite <- app_assoc.
Qed.

(** When [mkdir --make-parents] returns normally for a target spelled
    by its segments, the board was asked for every ancestor, from the root
    down and with exists-okay set, and last for the target with the
    setting of the user; it was asked for nothing else. *)
Theorem mkdir_make_parents_requests (parents : list string) (leaf : string)
    (exists_okay : bool) (w w' : world) :
  Forall no_slash (parents ++ [leaf]) ->
  mkdir (remote_path_of (parents ++ [leaf])) exists_okay true w = (w', Ok tt) ->
  calls w'
  = calls w ++ map (fun p => CallMkdir p true) (ancestors parents)
    ++ [CallMkdir (remote_path_of (parents ++ [leaf])) exists_okay].
Proof.
  intros Hall H. rewrite (mkdir_requests _ _ _ _ Hall) in H.
  unfold bind in H.
  destruct (for_each (ancestors parents) (create true) w) as [w1 [[]|e]] eqn:Ha;
    [|discriminate].
  apply for_each_create_calls in Ha.
  unfold create, on_board in H.
  destruct (files_mkdir (remote_path_of (parents ++ [leaf])) exists_okay
              (board w1)) as [b2 r].
  inversion H; subst; simpl. now rewrite Ha, <- app_assoc.
Qed.

(** For a directory directly under the root, [--make-parents] changes
    nothing but the spelling of a relative name, which gets its leading
    slash: there is no ancestor to ask for. *)
Theorem mkdir_make_parents_top_level (leaf : string) (exists_okay : bool)
    (w : world) :
  no_slash leaf ->
  mkdir ("/" ++ leaf) exists_okay true w = mkdir ("/" ++ leaf) exists_okay false w
  /\ (leaf <> EmptyString ->
      mkdir leaf exists_okay true w = mkdir ("/" ++ leaf) exists_okay false w).
Proof.
  intros Hleaf.
  assert (Habs : mkdir ("/" ++ leaf) exists_okay true w
                 = mkdir ("/" ++ leaf) exists_okay false w).
  { pose proof (mkdir_requests [] leaf exists_okay w) as H.
    cbn [app] in H. unfold remote_path_of in H. cbn [join] in H.
    rewrite H; [reflexivity | now constructor]. }
  split; [exact Habs|].
  intros Hne. destruct leaf as [|c rest]; [contradiction|].
  rewrite <- Habs. apply mkdir_relative.
  intros ->. unfold no_slash, has_char in Hleaf. simpl in Hleaf. discriminate.
Qed.

End MkdirMoreFacts.

Lemma mkdir_make_parents_requests_witness :
  calls (fst (mkdir (E := Sample.sample_env) "/a/b/c" false true
                (Sample.world0 [("/a", None)] [])))
  = [CallMkdir "/a" true; CallMkdir "/a/b" true; CallMkdir "/a/b/c" false].
Proof.
  assert (Hseg : Forall no_slash (["a"; "b"] ++ ["c"])%list)
    by (repeat constructor).
  exact (mkdir_make_parents_requests (E := Sample.sample_env)
           ["a"; "b"] "c" false (Sample.world0 [("/a", None)] []) _
           Hseg eq_refl).
Defined.

Lemma mkdir_make_parents_top_level_witness :
  mkdir (E := Sample.sample_env) "/code" false true (Sample.world0 [] [])
  = mkdir (E := Sample.sample_env) "/code" false false (Sample.world0 [] [])
  /\ mkdir (E := Sample.sample_env) "code" true true (Sample.world0 [] [])
     = mkdir (E := Sample.sample_env) "/code" true false (Sample.world0 [] []).
Proof.
  split.
  - exact (proj1 (mkdir_make_parents_top_level (E := Sample.sample_env)
                    "code" false (Sample.world0 [] []) eq_refl)).
  - refine (proj2 (mkdir_make_parents_top_level (E := Sample.sample_env)
                     "code" true (Sample.world0 [] []) eq_refl) _).
    discriminate.
Defined.

(* ================================================================= *)
(** ** More on [run] and [reset] *)

Section RunResetMoreFacts.

Context {E : Externals}.

(** A serial transport exception raised while [run] talks to the board
    is caught by the handler for [IOError] as well: it is reported as a
    failure to find or read the input file, and [run] returns normally. *)
Theorem run_hides_serial_error (local_file : string) (no_output : bool)
    (w : world) (b' : dev) (msg : string) :
  files_run local_file (negb no_output) (negb no_output) (host w) (board w)
    = (b', Raise (SerialException msg)) ->
  run local_file no_output w
  = (extend w b' []
       [("Failed to find or read input file: " ++ local_file) ++ LF]%string
       [CallRun local_file (negb no_output) (negb no_output)],
     Ok tt).
Proof.
  intros H.
  unfold run, try_except, bind, on_board, eprint, extend.
  rewrite H; cbn [is_IOError board host stdout stderr calls].
  now rewrite app_nil_r.
Qed.

(** An exception of the run that is no [IOError], such as the failure
    of the remote code, leaves [run] as it was raised, and nothing is
    written on either stream. *)
Theorem run_raises_other_errors (local_file : string) (no_output : bool)
    (w : world) (b' : dev) (e : exn) :
  files_run local_file (negb no_output) (negb no_output) (host w) (board w)
    = (b', Raise e) ->
  is_IOError e = false ->
  run local_file no_output w
  = (extend w b' [] []
       [CallRun local_file (negb no_output) (negb no_output)],
     Raise e).
Proof.
  intros H He.
  unfold run, try_except, bind, on_board, raise, extend.
  rewrite H, He; cbn [board host stdout stderr calls].
  now rewrite !app_nil_r.
Qed.

(** [run] asks the board to wait and to follow the output exactly when
    [--no-output] is not set, and writes what the run returns, decoded and
    with no newline added; when the run returns nothing, nothing is
    written. *)
Theorem run_prints_output (local_file : string) (no_output : bool)
    (w : world) (b' : dev) (output : option string) (text : string) :
  files_run local_file (negb no_output) (negb no_output) (host w) (board w)
    = (b', Ok output) ->
  (forall out, output = Some out -> decode_utf8 out = Ok text) ->
  run local_file no_output w
  = (extend w b' match output with Some _ => [text] | None => [] end []
       [CallRun local_file (negb no_output) (negb no_output)],
     Ok tt).
Proof.
  intros H Hdec.
  unfold run, try_except, bind, on_board, lift, print_no_end, ret, extend.
  rewrite H; cbn [board host stdout stderr calls].
  destruct output as [out|].
  - rewrite (Hdec out eq_refl).
    cbn [board host stdout stderr calls]. now rewrite app_nil_r.
  - now rewrite !app_nil_r.
Qed.

(** The soft reset enters the raw mode and leaves it again and does
    nothing else: no helper is defined, no reset call is sent, nothing is
    written, and the command answers what leaving the raw mode answers.
    When entering the raw mode raises, that is the only call. *)
Theorem reset_soft (w : world) :
  let '(b1, entered) := pyboard_enter_raw_repl (board w) in
  reset SOFT w
  = match entered with
    | Ok _ =>
        let '(b2, answer) := pyboard_exit_raw_repl b1 in
        (extend w b2 [] [] [CallEnterRawRepl; CallExitRawRepl], answer)
    | Raise e => (extend w b1 [] [] [CallEnterRawRepl], Raise e)
    end.
Proof.
  unfold reset, bind, on_board, extend.
  destruct (pyboard_enter_raw_repl (board w)) as [b1 [[]|e]];
    cbn [board host stdout stderr calls].
  - destruct (pyboard_exit_raw_repl b1) as [b2 answer].
    now rewrite !app_nil_r, <- app_assoc.
  - now rewrite !app_nil_r.
Qed.

(** For a reset other than the soft one, when the helper on the board
    answers a non-empty text (the mode is not supported), the text goes to
    the error stream, no reset call is sent, and the command returns
    normally. *)
Theorem reset_unsupported_mode (mode : reset_mode) (w : world)
    (b1 b2 b3 : dev) (out answer : string) :
  mode <> SOFT ->
  pyboard_enter_raw_repl (board w) = (b1, Ok tt) ->
  pyboard_exec_ reset_helper_code b1 = (b2, Ok out) ->
  pyboard_eval (reset_request mode) b2 = (b3, Ok answer) ->
  answer <> EmptyString ->
  reset mode w
  = (extend w b3 [("here we are " ++ repr_bytes answer) ++ LF]%string
       [answer ++ LF]%string
       [CallEnterRawRepl; CallExec reset_helper_code;
        CallEval (reset_request mode)],
     Ok tt).
Proof.
  intros Hmode H1 H2 H3 Hne.
  assert (Ht : truthy answer = true) by (destruct answer; [contradiction|reflexivity]).
  destruct mode; try (now contradiction Hmode);
    unfold reset, bind, on_board, print, eprint, extend;
    rewrite H1; cbn [board host stdout stderr calls];
    rewrite H2; cbn [board host stdout stderr calls];
    rewrite H3, Ht; cbn [board host stdout stderr calls];
    rewrite <- !app_assoc; reflexivity.
Qed.

(** Only the serial transport exception is expected after the reset
    call: any other exception of that call leaves [reset] as raised. *)
Theorem reset_raises_other_errors (mode : reset_mode) (w : world)
    (b1 b2 b3 b4 : dev) (out : string) (e : exn) :
  mode <> SOFT ->
  pyboard_enter_raw_repl (board w) = (b1, Ok tt) ->
  pyboard_exec_ reset_helper_code b1 = (b2, Ok out) ->
  pyboard_eval (reset_request mode) b2 = (b3, Ok EmptyString) ->
  pyboard_exec_raw_no_follow "reset()" b3 = (b4, Raise e) ->
  is_SerialException e = false ->
  reset mode w
  = (extend w b4 [("here we are " ++ repr_bytes EmptyString) ++ LF]%string []
       [CallEnterRawRepl; CallExec reset_helper_code;
        CallEval (reset_request mode); CallExecRawNoFollow "reset()"],
     Raise e).
Proof.
  intros Hmode H1 H2 H3 H4 He.
  destruct mode; try (now contradiction Hmode);
    unfold reset, bind, on_board, print, try_except, raise, extend;
    rewrite H1; cbn [board host stdout stderr calls];
    rewrite H2; cbn [board host stdout stderr calls];
    rewrite H3; cbn [truthy board host stdout stderr calls];
    rewrite H4, He; cbn [board host stdout stderr calls];
    rewrite app_nil_r, <- !app_assoc; reflexivity.
Qed.

End RunResetMoreFacts.

Lemma run_hides_serial_error_witness :
  let fault := SerialException "port closed" in
  run (E := Faulty.faulty_env fault Faulty.unsupported) "test.py" false
    (Faulty.make_world fault Faulty.unsupported [] [("test.py", Some "print(1)")] [] [] [])
  = (Faulty.make_world fault Faulty.unsupported [] [("test.py", Some "print(1)")] []
       ["Failed to find or read input file: test.py" ++ LF]%string
       [CallRun "test.py" true true], Ok tt).
Proof.
  intros fault.
  exact (run_hides_serial_error (E := Faulty.faulty_env fault Faulty.unsupported) "test.py" false
           (Faulty.make_world fault Faulty.unsupported [] [("test.py", Some "print(1)")] [] [] [])
           _ "port closed" eq_refl).
Defined.

Lemma run_raises_other_errors_witness :
  let fault := OtherError "PyboardError" "exception" in
  run (E := Faulty.faulty_env fault Faulty.unsupported) "test.py" true
    (Faulty.make_world fault Faulty.unsupported [] [("test.py", Some "print(1)")] [] [] [])
  = (Faulty.make_world fault Faulty.unsupported [] [("test.py", Some "print(1)")] [] []
       [CallRun "test.py" false false], Raise fault).
Proof.
  intros fault.
  exact (run_raises_other_errors (E := Faulty.faulty_env fault Faulty.unsupported) "test.py" true
           (Faulty.make_world fault Faulty.unsupported [] [("test.py", Some "print(1)")] [] [] [])
           _ fault eq_refl eq_refl).
Defined.

Lemma run_prints_output_witness :
  run (E := Sample.sample_env) "test.py" false
    (Sample.world0 [] [("test.py", Some "print(1)")])
  = (Sample.make_world [] [("test.py", Some "print(1)")] [EmptyString] []
       [CallRun "test.py" true true], Ok tt)
  /\ run (E := Sample.sample_env) "test.py" true
       (Sample.world0 [] [("test.py", Some "print(1)")])
     = (Sample.make_world [] [("test.py", Some "print(1)")] [] []
          [CallRun "test.py" false false], Ok tt).
Proof.
  split.
  - refine (run_prints_output (E := Sample.sample_env) "test.py" false
              (Sample.world0 [] [("test.py", Some "print(1)")]) _ _
              EmptyString eq_refl _).
    intros out Hout; inversion Hout; reflexivity.
  - refine (run_prints_output (E := Sample.sample_env) "test.py" true
              (Sample.world0 [] [("test.py", Some "print(1)")]) _ _
              EmptyString eq_refl _).
    intros out Hout; discriminate Hout.
Defined.

Lemma reset_unsupported_mode_witness :
  let fault := SerialException "port closed" in
  reset (E := Faulty.faulty_env fault Faulty.unsupported) SAFE_MODE
    (Faulty.make_world fault Faulty.unsupported [] [] [] [] [])
  = (Faulty.make_world fault Faulty.unsupported [] []
       ["here we are b'Reset mode only supported on CircuitPython'" ++ LF]%string
       ["Reset mode only supported on CircuitPython" ++ LF]%string
       [CallEnterRawRepl; CallExec reset_helper_code;
        CallEval "on_next_reset('SAFE_MODE')"],
     Ok tt).
Proof.
  intros fault.
  apply (reset_unsupported_mode (E := Faulty.faulty_env fault Faulty.unsupported) SAFE_MODE
           (Faulty.make_world fault Faulty.unsupported [] [] [] [] []) [] [] [] EmptyString
           Faulty.unsupported); try reflexivity; discriminate.
Defined.

Lemma reset_raises_other_errors_witness :
  let fault := OtherError "PyboardError" "could not enter raw repl" in
  reset (E := Faulty.faulty_env fault EmptyString) NORMAL
    (Faulty.make_world fault EmptyString [] [] [] [] [])
  = (Faulty.make_world fault EmptyString [] []
       ["here we are b''" ++ LF]%string []
       [CallEnterRawRepl; CallExec reset_helper_code;
        CallEval "on_next_reset('NORMAL')"; CallExecRawNoFollow "reset()"],
     Raise fault).
Proof.
  intros fault.
  apply (reset_raises_other_errors (E := Faulty.faulty_env fault EmptyString)
           NORMAL (Faulty.make_world fault EmptyString [] [] [] [] [])
           [] [] [] [] EmptyString fault); try reflexivity; discriminate.
Defined.

(* ================================================================= *)
(** ** More on the copy of one file *)

Section CopyMoreFacts.

Context {E : Externals}.

(** Without [--checksum] the board is never asked for a hash and the
    file is always sent: the only call is the one that writes the bytes,
    and the count returned is their number. *)
Theorem copy_file_without_checksum (strip verbose : bool)
    (local_filepath remote_filepath : string) (w w1 : world)
    (contents : string) (old : option string) :
  load_contents strip local_filepath w = (w1, Ok (contents, old)) ->
  let done := copy_file strip false verbose local_filepath remote_filepath w in
  calls (fst done) = calls w1 ++ [CallPut remote_filepath contents]
  /\ (board (fst done), snd done) = upload remote_filepath contents (board w1).
Proof.
  intros Hload done. unfold done.
  rewrite (copy_file_after_load _ _ _ _ _ _ _ _ _ Hload).
  unfold remote_checksum_matches, bind, on_board, when, print, ret, upload.
  destruct verbose; cbn [negb board host stdout stderr calls fst snd];
    destruct (files_put remote_filepath contents (board w1)) as [b2 [[]|e]];
    split; reflexivity.
Qed.


(** A local file that cannot be read ends the copy before anything
    else happens: the exception of the read is raised, and the world is as
    it was, with no call to the board. *)
Theorem copy_file_unreadable (strip checksum verbose : bool)
    (local_filepath remote_filepath : string) (w : world) (e : exn) :
  read_bytes local_filepath (host w) = Raise e ->
  copy_file strip checksum verbose local_filepath remote_filepath w
  = (w, Raise e).
Proof.
  intros Hread. unfold copy_file, load_contents, bind. now rewrite Hread.
Qed.

End CopyMoreFacts.

Lemma copy_file_without_checksum_witness :
  let w := Sample.world0 [("/main.py", Some "abc")] [("main.py", Some "abc")] in
  calls (fst (copy_file (E := Sample.sample_env) false false false
                "main.py" "/main.py" w))
  = [CallPut "/main.py" "abc"]
  /\ snd (copy_file (E := Sample.sample_env) false false false
            "main.py" "/main.py" w) = Ok 3.
Proof.
  intros w.
  destruct (copy_file_without_checksum (E := Sample.sample_env) false false
              "main.py" "/main.py" w w "abc" None eq_refl) as [Hc Hu].
  split; [exact Hc|]. now inversion Hu.
Defined.


Lemma copy_file_unreadable_witness :
  copy_file (E := Sample.sample_env) true true true "gone.py" "/gone.py"
    (Sample.world0 [] [])
  = (Sample.world0 [] [],
     Raise (IOError "No such file or directory: gone.py")).
Proof.
  exact (copy_file_unreadable (E := Sample.sample_env) true true true
           "gone.py" "/gone.py" (Sample.world0 [] []) _ eq_refl).
Defined.

(* ================================================================= *)
(** ** More on [get], and [ls] *)

Section GetMoreFacts.

Context {E : Externals} {O : OsPath}.

Lemma keeps_host_on_board {A : Type} (c : call) (op : dev -> dev * result A) :
  keeps_host (on_board c op).
Proof. intros w; unfold on_board; now destruct (op (board w)). Qed.

Lemma keeps_host_bind {A B : Type} (m : M A) (k : A -> M B) :
  keeps_host m -> (forall a, keeps_host (k a)) -> keeps_host (bind m k).
Proof.
  intros Hm Hk w; unfold bind. pose proof (Hm w) as H1.
  destruct (m w) as [w1 [a|e]]; simpl in H1; [|exact H1].
  now rewrite (Hk a w1).
Qed.

Lemma keeps_host_for_each {A : Type} (xs : list A) (body : A -> M unit) :
  (forall x, keeps_host (body x)) -> keeps_host (for_each xs body).
Proof.
  intros Hb; induction xs as [|x xs IH]; simpl; [intros w; reflexivity|].
  apply keeps_host_bind; auto.
Qed.

Lemma keeps_host_to_stdout (verbose : bool) (remote_file : string) :
  keeps_host (get_file verbose remote_file None).
Proof.
  unfold get_file. apply keeps_host_bind; [apply keeps_host_on_board|].
  intros contents. apply keeps_host_bind; [intros w; reflexivity|].
  intros text w; reflexivity.
Qed.

(** With no local path, [get] never writes on the host: a remote file is
    printed, a remote directory is refused, and the host's files stay as
    they were whatever the board answers. *)
Theorem get_without_local_path_keeps_host (remote_files : list string)
    (verbose : bool) :
  keeps_host (get remote_files None verbose).
Proof.
  destruct remote_files as [|r1 [|r2 rest]]; intros w; try reflexivity.
  change (get [r1] None verbose w)
    with (for_each [r1] (get_one verbose None) w).
  apply keeps_host_for_each. intros r.
  unfold get_one.
  apply keeps_host_bind; [apply keeps_host_on_board | intros c].
  apply keeps_host_bind; [apply keeps_host_on_board | intros [|]].
  - intros w0; reflexivity.
  - apply keeps_host_to_stdout.
Qed.

(** A remote directory needs a local directory to go to: with no local
    path, or with one that is an existing file, [get] raises a usage error
    once the board has said that the remote path is a directory, and asks
    for no listing and no file. *)
Theorem get_directory_needs_destination (remote_file canonical : string)
    (local_path : option lpath) (verbose : bool) (w : world) (b1 b2 : dev) :
  files_canonicalize_remote_path remote_file (board w) = (b1, Ok canonical) ->
  files_isdir canonical b1 = (b2, Ok true) ->
  (local_path = None
   \/ exists p, local_path = Some p /\ path_is_file p (host w) = true) ->
  get [remote_file] local_path verbose w
  = (extend w b2 [] [] [CallCanonicalize remote_file; CallIsdir canonical],
     Raise (UsageError "Remote directory needs a local directory destination")).
Proof.
  intros H1 H2 Hlp.
  change (get [remote_file] local_path verbose w)
    with (for_each [remote_file] (get_one verbose local_path) w).
  cbn [for_each]. unfold get_one, bind, on_board, ask_host, raise, extend.
  rewrite H1; cbn [board host stdout stderr calls].
  rewrite H2; cbn [board host stdout stderr calls].
  destruct Hlp as [-> | (p & -> & Hf)];
    cbn [board host stdout stderr calls]; [|rewrite Hf];
    now rewrite !app_nil_r, <- app_assoc.
Qed.

(** A single remote file with no local path, or with the local path
    [-], is fetched and printed, decoded, on the standard output; the calls
    are the canonical path, the directory test and the fetch. *)
Theorem get_file_to_stdout (remote_file canonical contents text : string)
    (local_path : option lpath) (verbose : bool) (w : world) (b1 b2 b3 : dev) :
  files_canonicalize_remote_path remote_file (board w) = (b1, Ok canonical) ->
  files_isdir canonical b1 = (b2, Ok false) ->
  files_get canonical b2 = (b3, Ok contents) ->
  decode_utf8 contents = Ok text ->
  (local_path = None
   \/ exists p, local_path = Some p /\ path_str p = "-") ->
  get [remote_file] local_path verbose w
  = (extend w b3 [text ++ LF]%string []
       [CallCanonicalize remote_file; CallIsdir canonical; CallGet canonical],
     Ok tt).
Proof.
  intros H1 H2 H3 H4 Hlp.
  change (get [remote_file] local_path verbose w)
    with (for_each [remote_file] (get_one verbose local_path) w).
  cbn [for_each].
  unfold get_one, get_file, bind, on_board, lift, print, ret, extend.
  rewrite H1; cbn [board host stdout stderr calls].
  rewrite H2; cbn [board host stdout stderr calls].
  destruct Hlp as [-> | (p & -> & Hp)];
    cbn [board host stdout stderr calls];
    [|rewrite Hp; change (String.eqb "-" "-") with true; cbv iota];
    rewrite H3; cbn [board host stdout stderr calls]; rewrite H4;
    cbn [board host stdout stderr calls];
    now rewrite !app_nil_r, <- !app_assoc.
Qed.


Lemma for_each_print (entries : list string) (w : world) :
  for_each entries print w
  = (extend w (board w) (map (fun f => f ++ LF)%string entries) [] [], Ok tt).
Proof.
  revert w; induction entries as [|f rest IH]; intros w.
  - simpl. now rewrite extend_nothing.
  - cbn [for_each map]. unfold bind, print at 1.
    rewrite IH. unfold extend; cbn [board host stdout stderr calls].
    now rewrite !app_nil_r, <- app_assoc.
Qed.

(** [ls] puts one call to the board and prints the entries of the
    answer one per line, in the order of the answer; when the listing
    raises, nothing is printed. *)
Theorem ls_prints_listing (directory : string) (long_format recursive : bool)
    (w : world) :
  let '(b', answer) := files_ls directory long_format recursive (board w) in
  ls directory long_format recursive w
  = match answer with
    | Ok entries =>
        (extend w b' (map (fun f => f ++ LF)%string entries) []
           [CallLs directory long_format recursive], Ok tt)
    | Raise e =>
        (extend w b' [] [] [CallLs directory long_format recursive], Raise e)
    end.
Proof.
  destruct (files_ls directory long_format recursive (board w))
    as [b' answer] eqn:H.
  unfold ls, bind, on_board. rewrite H.
  destruct answer as [entries|e].
  - rewrite for_each_print. unfold extend; cbn [board host stdout stderr calls].
    now rewrite !app_nil_r.
  - unfold extend. now rewrite !app_nil_r.
Qed.

End GetMoreFacts.

(* ================================================================= *)
(** ** [put] and more on entrypoint generation *)

Section PutMoreFacts.

Context {E : Externals} {O : OsPath}.

Lemma put_mkdir_outcome (verbose : bool) (remote_parent : string) (w : world) :
  put_mkdir verbose remote_parent w
  = let '(b', answer) :=
      files_mkdir remote_parent mkdir_default_exists_okay (board w) in
    (extend w b' (if verbose then [put_mkdir_echo remote_parent] else []) []
       [CallMkdir remote_parent mkdir_default_exists_okay],
     match answer with
     | Ok _ => Ok tt
     | Raise e => if is_DirectoryExistsError e then Ok tt else Raise e
     end).
Proof.
  unfold put_mkdir, try_except, bind, when, on_board, print, ret, raise, extend.
  destruct verbose; cbn [board host stdout stderr calls];
    destruct (files_mkdir remote_parent mkdir_default_exists_okay (board w))
      as [b' [[]|e]]; rewrite ?app_nil_r; try reflexivity;
    destruct e; reflexivity.
Qed.

(** While [put] walks a local directory, a remote directory that
    already exists is no obstacle: when the request for it raises the
    directory-exists error, the files of the directory are copied as if
    the request had succeeded. *)
Theorem put_tolerates_existing_directory (verbose strip checksum : bool)
    (local remote parent relative msg : string) (bytes_written : nat)
    (child_dirs child_files : list string) (w : world) (b' : dev) :
  os_path_relpath parent local (host w) = Ok relative ->
  let remote_parent := posixpath_normpath (posixpath_join remote relative) in
  files_mkdir remote_parent mkdir_default_exists_okay (board w)
    = (b', Raise (DirectoryExistsError msg)) ->
  put_entry verbose strip checksum local remote bytes_written
    (parent, child_dirs, child_files) w
  = add_each bytes_written child_files
      (fun filename =>
         copy_file strip checksum verbose (os_path_join parent filename)
           (posixpath_join remote_parent filename))
      (extend w b' (if verbose then [put_mkdir_echo remote_parent] else []) []
         [CallMkdir remote_parent mkdir_default_exists_okay]).
Proof.
  intros Hrel remote_parent Hmk.
  unfold put_entry. unfold bind at 1. rewrite Hrel.
  fold remote_parent. unfold bind at 1.
  rewrite put_mkdir_outcome, Hmk. reflexivity.
Qed.


(** [put] of a single file is its copy, followed under [--verbose] by
    an empty line and the report of the bytes the copy returned; when
    the copy raises, nothing is reported. *)
Theorem put_single_file (local remote : string)
    (verbose strip checksum : bool) (w : world) :
  os_path_isdir local (host w) = false ->
  put local (Some remote) verbose strip checksum w
  = match copy_file strip checksum verbose local remote w with
    | (w1, Ok n) =>
        (extend w1 (board w1) (if verbose then put_report n else []) [] [],
         Ok tt)
    | (w1, Raise e) => (w1, Raise e)
    end.
Proof.
  intros Hdir. unfold put, bind, ret, ask_host. rewrite Hdir.
  destruct (copy_file strip checksum verbose local remote w) as [w1 [n|e]];
    [|reflexivity].
  destruct verbose; unfold when, print, put_report, extend;
    cbn [Nat.add board host stdout stderr calls];
    rewrite ?app_nil_r, <- ?app_assoc; destruct w1; reflexivity.
Qed.

End PutMoreFacts.

Section EntrypointMoreFacts.

Context {E : Externals}.

(** Every script [generate_main_py] returns begins with the warning
    that the file is generated, with or without an entrypoint
    specifier. *)
Theorem generated_script_starts_with_warning (entrypoint : option string)
    (modules : list lpath) (h : hst) (script : string) :
  generate_main_py entrypoint modules h = Ok script ->
  exists rest, script = (AUTOGENERATED_WARNING ++ rest)%string.
Proof.
  unfold generate_main_py. destruct entrypoint as [e|].
  - destruct (EntryPoint_parse ("name=" ++ e ++ " [extras]")) as [obj|err];
      [|discriminate].
    intros H; inversion H; eexists; reflexivity.
  - intros H; inversion H; eexists; reflexivity.
Qed.

(** With no entrypoint specifier the script holds at most one import:
    either no module of the list is applicable and the script is the
    warning alone, or it is the warning and the import of the first
    applicable module. *)
Theorem implicit_entrypoint_at_most_one (modules : list lpath) (h : hst) :
  (forallb (fun x => negb (applicable h x)) modules = true
   /\ generate_main_py None modules h = Ok AUTOGENERATED_WARNING)
  \/ (exists skipped m later,
        modules = skipped ++ m :: later
        /\ forallb (fun x => negb (applicable h x)) skipped = true
        /\ applicable h m = true
        /\ generate_main_py None modules h
           = Ok (AUTOGENERATED_WARNING ++ import_line h m)%string).
Proof.
  assert (H : (forallb (fun x => negb (applicable h x)) modules = true
               /\ scan_modules modules h = EmptyString)
              \/ (exists skipped m later,
                    modules = skipped ++ m :: later
                    /\ forallb (fun x => negb (applicable h x)) skipped = true
                    /\ applicable h m = true
                    /\ scan_modules modules h = import_line h m)).
  { induction modules as [|m rest IH]; [left; split; reflexivity|].
    destruct (applicable h m) eqn:Hm.
    - right. exists [], m, rest. repeat split; auto.
      now apply scan_modules_applicable.
    - assert (Hskip : scan_modules (m :: rest) h = scan_modules rest h).
      { apply (scan_modules_skips h [m] rest). simpl. now rewrite Hm. }
      destruct IH as [[Hall Hs] | (skipped & m' & later & -> & Hall & Hm' & Hs)].
      + left. split; [simpl; now rewrite Hm | now rewrite Hskip].
      + right. exists (m :: skipped), m', later. repeat split; auto.
        * simpl. now rewrite Hm.
        * now rewrite Hskip. }
  unfold generate_main_py.
  destruct H as [[Hall Hs] | (skipped & m & later & Hmod & Hall & Hm & Hs)].
  - left. split; [assumption|]. now rewrite Hs, append_empty_r.
  - right. exists skipped, m, later. repeat split; auto. now rewrite Hs.
Qed.

End EntrypointMoreFacts.

(* ================================================================= *)
(** ** The additional statements on the sample board *)

Lemma get_directory_needs_destination_witness :
  get (E := Sample.sample_env) ["/lib"] None false
    (Sample.world0 [("/lib", None); ("/lib/x.py", Some "2")] [])
  = (Sample.make_world [("/lib", None); ("/lib/x.py", Some "2")] [] [] []
       [CallCanonicalize "/lib"; CallIsdir "/lib"],
     Raise (UsageError "Remote directory needs a local directory destination")).
Proof.
  refine (get_directory_needs_destination (E := Sample.sample_env)
            "/lib" "/lib" None false
            (Sample.world0 [("/lib", None); ("/lib/x.py", Some "2")] [])
            _ _ eq_refl eq_refl _).
  now left.
Defined.

Lemma get_file_to_stdout_witness :
  get (E := Sample.sample_env) ["a.py"] None false
    (Sample.world0 [("/a.py", Some "hello")] [])
  = (Sample.make_world [("/a.py", Some "hello")] [] ["hello" ++ LF]%string []
       [CallCanonicalize "a.py"; CallIsdir "/a.py"; CallGet "/a.py"],
     Ok tt).
Proof.
  refine (get_file_to_stdout (E := Sample.sample_env)
            "a.py" "/a.py" "hello" "hello" None false
            (Sample.world0 [("/a.py", Some "hello")] [])
            _ _ _ eq_refl eq_refl eq_refl eq_refl _).
  now left.
Defined.


Lemma put_tolerates_existing_directory_witness :
  let h := [("lib", None); ("lib/a.py", Some "aa")] in
  put_entry (E := Sample.sample_env) (O := SampleOs.sample_os)
    false false false "lib" "lib" 0 ("lib", [], ["a.py"])
    (Sample.world0 [("lib", None)] h)
  = (Sample.make_world [("lib", None); ("lib/a.py", Some "aa")] h [] []
       [CallMkdir "lib" false; CallPut "lib/a.py" "aa"],
     Ok 2).
Proof.
  intros h.
  rewrite (put_tolerates_existing_directory (E := Sample.sample_env) (O := SampleOs.sample_os)
             false false false "lib" "lib" "lib" "."
             "Directory already exists: lib" 0 [] (["a.py"] : list string)
             (Sample.world0 [("lib", None)] h) _ eq_refl eq_refl).
  reflexivity.
Defined.


Lemma put_single_file_witness :
  let h := [("main.py", Some "abc")] in
  put (E := Sample.sample_env) (O := SampleOs.sample_os) "main.py" (Some "/main.py") true false true
    (Sample.world0 [("/main.py", Some "abc")] h)
  = (Sample.make_world [("/main.py", Some "abc")] h
       (("skip main.py -> /main.py" ++ LF)%string :: put_report 0) []
       [CallChecksum "/main.py"],
     Ok tt).
Proof.
  intros h.
  exact (put_single_file (E := Sample.sample_env) (O := SampleOs.sample_os) "main.py" "/main.py"
           true false true (Sample.world0 [("/main.py", Some "abc")] h)
           eq_refl).
Defined.

Lemma generated_script_starts_with_warning_witness :
  exists rest,
    (AUTOGENERATED_WARNING ++ "import pkg.mod" ++ LF ++ "pkg.mod.run()" ++ LF)%string
    = (AUTOGENERATED_WARNING ++ rest)%string.
Proof.
  exact (generated_script_starts_with_warning (E := Sample.sample_env)
           (Some "pkg.mod:run") [] [] _ eq_refl).
Defined.
